(** * django-experiments: [experiments/utils.py]

    A shallow embedding of the [WebUser] wrapper (bot filter, human
    verification gate, enrollment store access, gating policy and goal
    recording) together with the properties of its enrollment and counting
    policy.

    Python methods become functions in a small state-and-exception monad
    over a [World] that holds everything a request can touch: the request
    with its session, the [Enrollment] table, the counter store and the
    chronological trace of calls made to the outside (counter increments and
    signals). *)

From Stdlib Require Import ZArith List String Ascii Bool Lia.
From stdpp Require Import base option list strings gmap pretty.

Local Open Scope string_scope.
Local Open Scope list_scope.

(** ** Data model *)

(** Modelled from the spec: the state constants [CONTROL_STATE],
    [ENABLED_STATE] and [GARGOYLE_STATE] are imported from
    [experiments.models], which is not part of the sources. They are three
    pairwise distinct values; [OTHER_STATE v] stands for any value of the
    [state] field that differs from all three. *)
Inductive State : Type :=
  | CONTROL_STATE
  | ENABLED_STATE
  | GARGOYLE_STATE
  | OTHER_STATE (v : Z).

Definition State_eqb (a b : State) : bool :=
  match a, b with
  | CONTROL_STATE, CONTROL_STATE => true
  | ENABLED_STATE, ENABLED_STATE => true
  | GARGOYLE_STATE, GARGOYLE_STATE => true
  | OTHER_STATE v, OTHER_STATE v' => Z.eqb v v'
  | _, _ => false
  end.

(** Modelled from the spec: [CONTROL_GROUP] is imported from
    [experiments.models]; it is the reserved alternative name that means
    excluded / not enrolled. *)
Definition CONTROL_GROUP : string := "control".

(** An [Experiment] as this module reads it: [name], [state] and the
    optional [switch_key]. *)
Record Experiment : Type := {
  name : string;
  state : State;
  switch_key : option string
}.

(** [request.user]: [AnonymousUser] or a registered user with primary key
    [pk]. *)
Inductive User : Type :=
  | AnonymousUser
  | RegisteredUser (pk : Z).

(** The session entries this module reads and writes. [None] means the key
    is absent from the session. The enrollments entry is a dict
    experiment name -> (alternative, goals). *)
Record Session : Type := {
  session_key : option string;
  experiments_verified_human : option bool;
  experiments_enrollments : option (gmap string (string * list string))
}.

Record Request : Type := {
  user : User;
  HTTP_USER_AGENT : option string;  (* request.META.get("HTTP_USER_AGENT") *)
  session : Session
}.

(** Calls that leave the module, in the order they are made. *)
Inductive Event : Type :=
  | counters_increment (key token : string)
  | experiment_incr_participant
      (experiment : Experiment) (alternative : string) (u : User)
      (participants : nat)
  | goal_hit
      (experiment : Experiment) (alternative goal : string) (u : User)
      (hits : nat)
  | user_confirmed_human (u : User)
  | experiment_user_added
      (experiment : Experiment) (u : User) (alternative : string).

(** Modelled from the spec: the [Enrollment] model is not part of the
    sources. It has one row per (user, experiment) pair (uniqueness
    invariant of the data model), so the table is a finite map from
    (user pk, experiment name) to the alternative. *)
Abbreviation EnrollmentTable := (gmap (Z * string) string).

(** Modelled from the spec: the Counter Store ([experiments.counters]) is
    not part of the sources. Per counter key it keeps the set of dedup
    tokens that have contributed; the count is the size of that set. *)
Abbreviation CounterStore := (gmap string (gset string)).

Record World : Type := {
  request : Request;
  Enrollment_objects : EnrollmentTable;
  counter_store : CounterStore;
  trace : list Event
}.

(** What the storage layer answers to the insert of [get_or_create]. *)
Inductive InsertOutcome : Type :=
  | InsertOk
  | InsertDuplicateKey.

(** External collaborators and configuration, fixed during a call. *)
Record Env : Type := {
  (* experiment_manager[name] *)
  experiment_manager : string -> option Experiment;
  (* enrollment.experiment: the foreign key of a row, resolved *)
  Experiment_objects : string -> option Experiment;
  (* gargoyle.is_active(switch_key, request) *)
  gargoyle_is_active : string -> Request -> bool;
  (* getattr(settings, 'EXPERIMENTS_VERIFY_HUMAN', True): None when unset *)
  EXPERIMENTS_VERIFY_HUMAN : option bool;
  (* the key session.save() allocates when the session has none *)
  new_session_key : string;
  (* whether a concurrent writer makes the insert hit the unique key *)
  insert_outcome : InsertOutcome
}.

(** ** State and exception monad *)

Inductive Exn : Type :=
  | ValueError (unrecognised : State)
  | KeyError (key : string)
  | DoesNotExist
  | IntegrityError.

Inductive Outcome (A : Type) : Type :=
  | Return (a : A)
  | Raise (e : Exn).
Arguments Return {A} a.
Arguments Raise {A} e.

(** Effects performed before an exception stay performed: the world is
    returned in both outcomes. *)
Definition M (A : Type) : Type := World -> Outcome A * World.

Definition ret {A} (a : A) : M A := fun w => (Return a, w).
Definition raise {A} (e : Exn) : M A := fun w => (Raise e, w).
Definition bind {A B} (c : M A) (k : A -> M B) : M B := fun w =>
  match c w with
  | (Return a, w') => k a w'
  | (Raise e, w') => (Raise e, w')
  end.

Notation "'do' x <- c ; k" := (bind c (fun x => k))
  (at level 10, x name, c at level 100, k at level 200).
Notation "c1 ;;; c2" := (bind c1 (fun _ => c2))
  (at level 100, right associativity).

Definition get_world : M World := fun w => (Return w, w).
Definition modify (f : World -> World) : M unit := fun w => (Return tt, f w).

(** [for x in xs: body] *)
Fixpoint for_each {A} (xs : list A) (body : A -> M unit) : M unit :=
  match xs with
  | [] => ret tt
  | x :: xs' => body x ;;; for_each xs' body
  end.

Definition exec {A} (c : M A) (w : World) : World := snd (c w).
Definition outcome {A} (c : M A) (w : World) : Outcome A := fst (c w).

(** ** World updates *)

Definition set_session (s : Session) (w : World) : World :=
  {| request := {| user := user (request w);
                   HTTP_USER_AGENT := HTTP_USER_AGENT (request w);
                   session := s |};
     Enrollment_objects := Enrollment_objects w;
     counter_store := counter_store w;
     trace := trace w |}.

Definition set_table (t : EnrollmentTable) (w : World) : World :=
  {| request := request w;
     Enrollment_objects := t;
     counter_store := counter_store w;
     trace := trace w |}.

Definition set_counters (c : CounterStore) (w : World) : World :=
  {| request := request w;
     Enrollment_objects := Enrollment_objects w;
     counter_store := c;
     trace := trace w |}.

Definition emit (ev : Event) (w : World) : World :=
  {| request := request w;
     Enrollment_objects := Enrollment_objects w;
     counter_store := counter_store w;
     trace := trace w ++ [ev] |}.

(** signals.<signal>.send(...) *)
Definition send (ev : Event) : M unit := modify (emit ev).

(** ** Bot filter *)

(** The alternatives of [BOT_REGEX], all literal. *)
Definition BOT_SIGNATURES : list string :=
  [ "Baidu"; "Gigabot"; "Googlebot"; "YandexBot"; "AhrefsBot"; "TVersity";
    "libwww-perl"; "Yeti"; "lwp-trivial"; "msnbot"; "bingbot";
    "facebookexternalhit"; "Twitterbot"; "Twitmunin"; "SiteUptime";
    "TwitterFeed"; "Slurp"; "WordPress"; "ZIBB"; "ZyBorg" ].

(** [re.IGNORECASE] on byte strings: ASCII letters compare by lower case. *)
Definition ascii_lower (c : ascii) : ascii :=
  let n := N_of_ascii c in
  if ((65 <=? n) && (n <=? 90))%N then ascii_of_N (n + 32) else c.

Fixpoint string_lower (s : string) : string :=
  match s with
  | EmptyString => EmptyString
  | String c s' => String (ascii_lower c) (string_lower s')
  end.

(** The literal [pat] matches at the start of [s], ignoring case. *)
Fixpoint match_here (pat s : string) : bool :=
  match pat, s with
  | EmptyString, _ => true
  | String p pat', String c s' =>
      Ascii.eqb (ascii_lower p) (ascii_lower c) && match_here pat' s'
  | String _ _, EmptyString => false
  end.

(** The literal [pat] matches somewhere in [s], ignoring case. *)
Fixpoint search_literal (pat s : string) : bool :=
  match_here pat s ||
  match s with
  | EmptyString => false
  | String _ s' => search_literal pat s'
  end.

(** bool(BOT_REGEX.search(ua)) *)
Definition BOT_REGEX_search (ua : string) : bool :=
  existsb (fun sig => search_literal sig ua) BOT_SIGNATURES.

(** ** WebUser *)

Definition _is_anonymous (r : Request) : bool :=
  match user r with
  | AnonymousUser => true
  | RegisteredUser _ => false
  end.

Definition _is_bot (r : Request) : bool :=
  BOT_REGEX_search (default "" (HTTP_USER_AGENT r)).

Definition _is_verified_human (env : Env) (r : Request) : bool :=
  if default true (EXPERIMENTS_VERIFY_HUMAN env)
  then default false (experiments_verified_human (session r))
  else true.

(** Truth value of [session.session_key]: absent and empty are both false. *)
Definition has_session_key (s : Session) : bool :=
  match session_key s with
  | None => false
  | Some k => negb (String.eqb k "")
  end.

(** session.save() when the session has no key: a key is allocated. *)
Definition session_save (env : Env) (s : Session) : Session :=
  {| session_key := Some (new_session_key env);
     experiments_verified_human := experiments_verified_human s;
     experiments_enrollments := experiments_enrollments s |}.

Definition _participant_identifier (env : Env) : M string :=
  do w <- get_world;
  match user (request w) with
  | RegisteredUser pk => ret ("user:" +:+ pretty pk)
  | AnonymousUser =>
      (if has_session_key (session (request w)) then ret tt
       else modify (set_session (session_save env (session (request w))))) ;;;
      do w' <- get_world;
      ret ("session:" +:+ default "None" (session_key (session (request w'))))
  end.

Definition PARTICIPANT_KEY (experiment_name alternative_name : string) : string :=
  experiment_name +:+ ":" +:+ alternative_name +:+ ":participant".

Definition GOAL_KEY (experiment_name alternative_name goal_name : string) : string :=
  experiment_name +:+ ":" +:+ alternative_name +:+ ":" +:+ goal_name +:+ ":goal".

(** Modelled from the spec: [counters.increment(key, dedup_token)] is not
    part of the sources. It adds the token to the key's set and returns the
    count, so it is monotonic per key and idempotent per (key, token). *)
Definition counters_increment_call (key token : string) : M nat := fun w =>
  let tokens := {[token]} ∪ default ∅ (counter_store w !! key) in
  (Return (size tokens),
   emit (counters_increment key token)
        (set_counters (<[key := tokens]> (counter_store w)) w)).

Definition _increment_participant_count
    (env : Env) (experiment : Experiment) (alternative_name : string) : M unit :=
  let counter_key := PARTICIPANT_KEY (name experiment) alternative_name in
  do token <- _participant_identifier env;
  do count <- counters_increment_call counter_key token;
  do w <- get_world;
  send (experiment_incr_participant experiment alternative_name
          (user (request w)) count).

Definition _increment_goal_count
    (env : Env) (experiment : Experiment) (alternative_name goal_name : string)
    : M unit :=
  let counter_key := GOAL_KEY (name experiment) alternative_name goal_name in
  do token <- _participant_identifier env;
  do count <- counters_increment_call counter_key token;
  do w <- get_world;
  send (goal_hit experiment alternative_name goal_name
          (user (request w)) count).

(** [try: c] with the exception, if any, handed to the caller to dispatch
    on; the effects of [c] up to the exception are kept. *)
Definition attempt {A} (c : M A) : M (Outcome A) := fun w =>
  let (o, w') := c w in (Return o, w').

Definition set_verified (s : Session) : Session :=
  {| session_key := session_key s;
     experiments_verified_human := Some true;
     experiments_enrollments := experiments_enrollments s |}.

Definition set_enrollments
    (d : gmap string (string * list string)) (s : Session) : Session :=
  {| session_key := session_key s;
     experiments_verified_human := experiments_verified_human s;
     experiments_enrollments := Some d |}.

(** Truth value of a dict read with default [None]: absent and empty are
    both false. *)
Definition dict_truthy (o : option (gmap string (string * list string))) : bool :=
  match o with
  | None => false
  | Some d => negb (bool_decide (d = ∅))
  end.

(** experiment_manager[experiment_name] *)
Definition experiment_manager_getitem (env : Env) (experiment_name : string)
    : M Experiment :=
  match experiment_manager env experiment_name with
  | Some e => ret e
  | None => raise (KeyError experiment_name)
  end.

(** enrollment.experiment *)
Definition enrollment_experiment (env : Env) (experiment_name : string)
    : M Experiment :=
  match Experiment_objects env experiment_name with
  | Some e => ret e
  | None => raise DoesNotExist
  end.

Definition confirm_human (env : Env) : M unit :=
  do w <- get_world;
  modify (set_session (set_verified (session (request w)))) ;;;
  send (user_confirmed_human (user (request w))) ;;;
  do w <- get_world;
  let enrollments := experiments_enrollments (session (request w)) in
  if negb (dict_truthy enrollments) then ret tt
  else
    (* Promote experiments *)
    for_each (map_to_list (default ∅ enrollments))
      (fun '(experiment_name, (alternative, goals)) =>
         do experiment <- experiment_manager_getitem env experiment_name;
         _increment_participant_count env experiment alternative).

Definition get_enrollment (env : Env) (experiment : Experiment)
    : M (option string) :=
  do w <- get_world;
  if _is_bot (request w) then
    (* Bot/Spider, so send back control group *)
    ret (Some CONTROL_GROUP)
  else
    match user (request w) with
    | RegisteredUser pk =>
        (* Registered User *)
        match Enrollment_objects w !! (pk, name experiment) with
        | Some alternative => ret (Some alternative)
        | None => ret None   (* except Enrollment.DoesNotExist *)
        end
    | AnonymousUser =>
        (* Not registered, use Sessions *)
        let enrollments := experiments_enrollments (session (request w)) in
        if dict_truthy enrollments then
          match default ∅ enrollments !! name experiment with
          | Some (alternative, goals) => ret (Some alternative)
          | None => ret None
          end
        else ret None
    end.

(** Enrollment.objects.get_or_create(user, experiment, defaults): the
    existing row, or a freshly inserted one; the insert raises
    [IntegrityError] when a concurrent writer took the unique key. The
    result is the row's alternative and the [created] flag. *)
Definition get_or_create (env : Env) (pk : Z) (experiment_name : string)
    (alternative : string) : M (string * bool) :=
  do w <- get_world;
  match Enrollment_objects w !! (pk, experiment_name) with
  | Some existing => ret (existing, false)
  | None =>
      match insert_outcome env with
      | InsertOk =>
          modify (set_table
                    (<[(pk, experiment_name) := alternative]>
                       (Enrollment_objects w))) ;;;
          ret (alternative, true)
      | InsertDuplicateKey => raise IntegrityError
      end
  end.

(** enrollment.alternative = alternative; enrollment.save() *)
Definition enrollment_save (pk : Z) (experiment_name alternative : string)
    : M unit :=
  do w <- get_world;
  modify (set_table
            (<[(pk, experiment_name) := alternative]> (Enrollment_objects w))).

Definition set_enrollment (env : Env) (experiment : Experiment)
    (alternative : string) : M unit :=
  do w <- get_world;
  if _is_bot (request w) then
    (* Bot/Spider, so don't enroll *)
    ret tt
  else
    match user (request w) with
    | RegisteredUser pk =>
        (* Registered User *)
        do r <- attempt (get_or_create env pk (name experiment) alternative);
        match r with
        | Raise IntegrityError =>
            (* Already registered (db race condition under high load) *)
            ret tt
        | Raise e => raise e
        | Return (enrollment_alternative, _) =>
            (* Update alternative if it doesn't match *)
            (if negb (String.eqb enrollment_alternative alternative)
             then enrollment_save pk (name experiment) alternative
             else ret tt) ;;;
            _increment_participant_count env experiment alternative ;;;
            send (experiment_user_added experiment (user (request w))
                    alternative)
        end
    | AnonymousUser =>
        (* Not registered use Sessions *)
        let enrollments :=
          default ∅ (experiments_enrollments (session (request w))) in
        modify (set_session
                  (set_enrollments
                     (<[name experiment := (alternative, [])]> enrollments)
                     (session (request w)))) ;;;
        do w' <- get_world;
        (* Only Increment participant count for verified users *)
        (if _is_verified_human env (request w')
         then _increment_participant_count env experiment alternative
         else ret tt) ;;;
        send (experiment_user_added experiment (user (request w))
                alternative)
    end.

(** Truth value of [experiment.switch_key]. *)
Definition switch_key_truthy (k : option string) : bool :=
  match k with
  | None => false
  | Some s => negb (String.eqb s "")
  end.

(** The Python value returned: [Some true], [Some false], or [None] when
    control falls off the end of the function. *)
Definition _should_increment (env : Env) (experiment : Experiment)
    : M (option bool) :=
  if State_eqb (state experiment) CONTROL_STATE then
    (* Control state, experiment not running *)
    ret (Some false)
  else if State_eqb (state experiment) GARGOYLE_STATE
          && switch_key_truthy (switch_key experiment) then
    (* Gargoyle state only increment actives. *)
    do w <- get_world;
    if gargoyle_is_active env (default "" (switch_key experiment)) (request w)
    then ret (Some true)
    else ret None
  else if State_eqb (state experiment) ENABLED_STATE then
    ret (Some true)
  else
    raise (ValueError (state experiment)).

(** Truth value of what [_should_increment] returned. *)
Definition truthy (v : option bool) : bool := default false v.

(** Enrollment.objects.filter(user=pk): the user's rows as
    (experiment name, alternative). *)
Definition objects_filter_user (pk : Z) (t : EnrollmentTable)
    : list (string * string) :=
  omap (fun '((u, experiment_name), alternative) =>
          if Z.eqb u pk then Some (experiment_name, alternative) else None)
       (map_to_list t).

Definition record_goal (env : Env) (goal_name : string) : M unit :=
  do w <- get_world;
  (* Bots don't register goals *)
  if _is_bot (request w) then ret tt
  else
    match user (request w) with
    | RegisteredUser pk =>
        (* If the user is registered *)
        let enrollments := objects_filter_user pk (Enrollment_objects w) in
        match enrollments with
        | [] => ret tt
        | _ :: _ =>
            for_each enrollments
              (fun '(experiment_name, alternative) =>
                 do experiment <- enrollment_experiment env experiment_name;
                 do go <- _should_increment env experiment;
                 if truthy go
                 then _increment_goal_count env experiment alternative goal_name
                 else ret tt)
        end
    | AnonymousUser =>
        (* If confirmed human *)
        if _is_verified_human env (request w) then
          let enrollments := experiments_enrollments (session (request w)) in
          if negb (dict_truthy enrollments) then ret tt
          else
            for_each (map_to_list (default ∅ enrollments))
              (fun '(experiment_name, (alternative, goals)) =>
                 do experiment <- experiment_manager_getitem env experiment_name;
                 do go <- _should_increment env experiment;
                 if truthy go
                 then _increment_goal_count env experiment alternative goal_name
                 else ret tt)
        else
          (* unverified: the goal is dropped *)
          ret tt
    end.

(** ** Reading the trace *)

(** The calls to [counters.increment] recorded in a trace, as (key, token). *)
Definition increment_calls (evs : list Event) : list (string * string) :=
  omap (fun ev => match ev with
                  | counters_increment key token => Some (key, token)
                  | _ => None
                  end) evs.

(** The events a computation adds to the trace. *)
Definition new_events {A} (c : M A) (w : World) : list Event :=
  drop (length (trace w)) (trace (exec c w)).

(** The tokens that have contributed to a counter key. *)
Definition contributors (key : string) (w : World) : gset string :=
  default ∅ (counter_store w !! key).

(** The count of a counter key. *)
Definition counter_value (key : string) (w : World) : nat :=
  size (contributors key w).

(** The world once [_participant_identifier] has forced a session key. *)
Definition ensure_session_key (env : Env) (w : World) : World :=
  match user (request w) with
  | RegisteredUser _ => w
  | AnonymousUser =>
      if has_session_key (session (request w)) then w
      else set_session (session_save env (session (request w))) w
  end.

(** The dedup token [_participant_identifier] returns. *)
Definition participant_token (env : Env) (w : World) : string :=
  match user (request w) with
  | RegisteredUser pk => "user:" +:+ pretty pk
  | AnonymousUser =>
      "session:" +:+
      default "None"
        (session_key (session (request (ensure_session_key env w))))
  end.

(** The world after one deduplicated increment of [key] followed by the
    signal [sig] that carries the resulting count. *)
Definition counted (env : Env) (key : string) (sig : nat -> Event)
    (w : World) : World :=
  let w1 := ensure_session_key env w in
  let tokens := {[participant_token env w]} ∪ contributors key w1 in
  emit (sig (size tokens))
    (emit (counters_increment key (participant_token env w))
       (set_counters (<[key := tokens]> (counter_store w1)) w1)).

(** The request of this visitor with another session content. *)
Definition with_session (s : Session) (r : Request) : Request :=
  {| user := user r; HTTP_USER_AGENT := HTTP_USER_AGENT r; session := s |}.

(** The user agent matches one of the crawler signatures, ignoring case. *)
Definition matches_crawler_signature (ua : string) : Prop :=
  exists sig pre post,
    In sig BOT_SIGNATURES /\
    string_lower ua = pre +:+ string_lower sig +:+ post.

(** ** Concrete requests and experiments used to exercise the statements *)

Definition fresh_session : Session :=
  {| session_key := None;
     experiments_verified_human := None;
     experiments_enrollments := None |}.

Definition exp_control : Experiment :=
  {| name := "X"; state := CONTROL_STATE; switch_key := None |}.
Definition exp_enabled : Experiment :=
  {| name := "X"; state := ENABLED_STATE; switch_key := None |}.
Definition exp_gargoyle : Experiment :=
  {| name := "X"; state := GARGOYLE_STATE; switch_key := Some "sw" |}.
Definition exp_gargoyle_nokey : Experiment :=
  {| name := "X"; state := GARGOYLE_STATE; switch_key := Some "" |}.
Definition exp_other : Experiment :=
  {| name := "X"; state := OTHER_STATE 7; switch_key := None |}.

(** An environment that resolves every name to [e], with the switch oracle
    answering [active] for every key and request. *)
Definition env_with (e : Experiment) (active : bool) (ins : InsertOutcome)
    : Env :=
  {| experiment_manager := fun _ => Some e;
     Experiment_objects := fun _ => Some e;
     gargoyle_is_active := fun _ _ => active;
     EXPERIMENTS_VERIFY_HUMAN := None;
     new_session_key := "k1";
     insert_outcome := ins |}.

Definition world_of (u : User) (agent : option string) (s : Session) : World :=
  {| request := {| user := u; HTTP_USER_AGENT := agent; session := s |};
     Enrollment_objects := ∅;
     counter_store := ∅;
     trace := [] |}.

Definition registered_world : World :=
  world_of (RegisteredUser 7) (Some "Mozilla/5.0") fresh_session.
Definition anonymous_world : World :=
  world_of AnonymousUser (Some "Mozilla/5.0") fresh_session.
Definition bot_world : World :=
  world_of (RegisteredUser 7)
    (Some "Mozilla/5.0 (compatible; Googlebot/2.1)") fresh_session.
Definition no_agent_world : World :=
  world_of AnonymousUser None
    {| session_key := Some "s1";
       experiments_verified_human := Some true;
       experiments_enrollments := Some {[ "X" := ("A", []) ]} |}.

(** ** The claims that the code does not satisfy, as stated *)

(** In GARGOYLE state the decision is [True] exactly when the oracle
    reports the experiment's switch key active for this request. *)
Definition gargoyle_decides_by_oracle (env : Env) (e : Experiment) (w : World)
    : Prop :=
  state e = GARGOYLE_STATE ->
  (outcome (_should_increment env e) w = Return (Some true) <->
   gargoyle_is_active env (default "" (switch_key e)) (request w) = true).

(** The call loses the duplicate-key race: it sees no row, and its insert
    hits the unique key. *)
Definition loses_race (env : Env) (w : World) (pk : Z) (e : Experiment)
    : Prop :=
  Enrollment_objects w !! (pk, name e) = None /\
  insert_outcome env = InsertDuplicateKey.

(** Once [a] is stored for the experiment, enrolling again with [b] leaves
    [a] stored. *)
Definition reenrollment_keeps_alternative
    (env : Env) (e : Experiment) (a b : string) (w : World) : Prop :=
  let w1 := exec (set_enrollment env e a) w in
  let w2 := exec (set_enrollment env e b) w1 in
  outcome (get_enrollment env e) w1 = Return (Some a) ->
  outcome (get_enrollment env e) w2 = Return (Some a).

(** The call makes exactly one call to [counters.increment], for the
    participant key of the experiment and alternative. *)
Definition fires_participant_increment_once
    (env : Env) (e : Experiment) (alternative : string) (w : World) : Prop :=
  exists token,
    increment_calls (new_events (set_enrollment env e alternative) w) =
    [(PARTICIPANT_KEY (name e) alternative, token)].

(** ** What a call counted *)

(** One counted event: a participant of [e] in an alternative, or a goal
    reached by a participant of [e] in an alternative. *)
Inductive Counted : Type :=
  | CountedParticipant (e : Experiment) (alternative : string)
  | CountedGoal (e : Experiment) (alternative goal : string).

Definition counted_key (c : Counted) : string :=
  match c with
  | CountedParticipant e a => PARTICIPANT_KEY (name e) a
  | CountedGoal e a g => GOAL_KEY (name e) a g
  end.

Definition counted_signal (c : Counted) (u : User) : nat -> Event :=
  match c with
  | CountedParticipant e a => experiment_incr_participant e a u
  | CountedGoal e a g => goal_hit e a g u
  end.

(** The world after [_increment_participant_count] or
    [_increment_goal_count] ran for [c]. *)
Definition count_one (env : Env) (c : Counted) (w : World) : World :=
  counted env (counted_key c) (counted_signal c (user (request w))) w.

Definition count_all (env : Env) (cs : list Counted) (w : World) : World :=
  fold_left (fun w c => count_one env c w) cs w.

(** Two requests of the same visitor: they differ at most in the session
    key that [_participant_identifier] may have forced. *)
Definition same_visitor (r r' : Request) : Prop :=
  user r = user r' /\
  HTTP_USER_AGENT r = HTTP_USER_AGENT r' /\
  experiments_verified_human (session r) =
    experiments_verified_human (session r') /\
  experiments_enrollments (session r) = experiments_enrollments (session r').

(** The decision of [_should_increment] for a request. *)
Definition gate (env : Env) (e : Experiment) (r : Request)
    : Outcome (option bool) :=
  outcome (_should_increment env e)
    {| request := r; Enrollment_objects := ∅; counter_store := ∅; trace := [] |}.

(** What one round of the promotion loop of [confirm_human] does. *)
Definition promote_item (env : Env) (item : string * (string * list string))
    (r : Request) : Outcome (option Counted) :=
  match experiment_manager env item.1 with
  | Some e => Return (Some (CountedParticipant e item.2.1))
  | None => Raise (KeyError item.1)
  end.

(** What one round of the loops of [record_goal] does, for an enrollment of
    alternative [a] in the experiment [resolved]. *)
Definition goal_item (env : Env) (goal_name : string)
    (resolved : Outcome Experiment) (a : string) (r : Request)
    : Outcome (option Counted) :=
  match resolved with
  | Raise x => Raise x
  | Return e =>
      match gate env e r with
      | Raise x => Raise x
      | Return go =>
          if truthy go then Return (Some (CountedGoal e a goal_name))
          else Return None
      end
  end.

Definition lookup_or {A} (o : option A) (x : Exn) : Outcome A :=
  match o with
  | Some a => Return a
  | None => Raise x
  end.

(** The rounds of the two loops of [record_goal]. *)
Definition goal_item_registered (env : Env) (goal_name : string)
    (item : string * string) (r : Request) : Outcome (option Counted) :=
  goal_item env goal_name
    (lookup_or (Experiment_objects env item.1) DoesNotExist) item.2 r.

Definition goal_item_anonymous (env : Env) (goal_name : string)
    (item : string * (string * list string)) (r : Request)
    : Outcome (option Counted) :=
  goal_item env goal_name
    (lookup_or (experiment_manager env item.1) (KeyError item.1)) item.2.1 r.

Fixpoint last_char (s : string) : option ascii :=
  match s with
  | EmptyString => None
  | String c s' =>
      match last_char s' with
      | None => Some c
      | Some l => Some l
      end
  end.

(** The world after the first two statements of [confirm_human]. *)
Definition confirmed (w : World) : World :=
  emit (user_confirmed_human (user (request w)))
    (set_session (set_verified (session (request w))) w).

(** The enrollments cached in the session, none when the entry is absent. *)
Definition session_enrollments (w : World)
    : gmap string (string * list string) :=
  default ∅ (experiments_enrollments (session (request w))).

(** The visitor is enrolled in [e] with alternative [a]: a row of the
    table for a registered user, an entry of the session for an anonymous
    one; the name resolves to [e]. *)
Definition enrolled_in (env : Env) (w : World) (e : Experiment) (a : string)
    : Prop :=
  match user (request w) with
  | RegisteredUser pk =>
      Enrollment_objects w !! (pk, name e) = Some a /\
      Experiment_objects env (name e) = Some e
  | AnonymousUser =>
      (exists goals, session_enrollments w !! name e = Some (a, goals)) /\
      experiment_manager env (name e) = Some e
  end.

(** An anonymous visitor is verified human; nothing is asked of a
    registered one. *)
Definition verified_if_anonymous (env : Env) (w : World) : Prop :=
  user (request w) = AnonymousUser -> _is_verified_human env (request w) = true.

(** The alternative stored for the visitor, if any. *)
Definition stored_alternative (w : World) (e : Experiment) : option string :=
  match user (request w) with
  | RegisteredUser pk => Enrollment_objects w !! (pk, name e)
  | AnonymousUser => fst <$> session_enrollments w !! name e
  end.

(** The world once [set_enrollment] has cached (alternative, []) in the
    session. *)
Definition cached (e : Experiment) (alternative : string) (w : World)
    : World :=
  set_session
    (set_enrollments
       (<[name e := (alternative, [])]> (session_enrollments w))
       (session (request w))) w.

(** A call of one of the three operations of the engine. *)
Inductive Call : Type :=
  | call_get_enrollment (e : Experiment)
  | call_set_enrollment (e : Experiment) (alternative : string)
  | call_record_goal (goal_name : string).

Definition run_call (env : Env) (c : Call) : M unit :=
  match c with
  | call_get_enrollment e => do _r <- get_enrollment env e; ret tt
  | call_set_enrollment e alternative => set_enrollment env e alternative
  | call_record_goal goal_name => record_goal env goal_name
  end.

Definition run_calls (env : Env) (cs : list Call) : M unit :=
  for_each cs (run_call env).

(** While the switch of a GARGOYLE experiment is inactive for the request,
    [set_enrollment] leaves the experiment's participant counter alone. *)
Definition inactive_switch_blocks_participant
    (env : Env) (e : Experiment) (alternative : string) (w : World) : Prop :=
  forall k,
    state e = GARGOYLE_STATE -> switch_key e = Some k ->
    gargoyle_is_active env k (request w) = false ->
    counter_value (PARTICIPANT_KEY (name e) alternative)
      (exec (set_enrollment env e alternative) w) =
    counter_value (PARTICIPANT_KEY (name e) alternative) w.

(** ** Further notions used to describe the remaining behaviour *)

(** The gate of [_should_increment] can answer for the experiment: its
    state is one of the three known ones, and a GARGOYLE experiment has a
    non-empty switch key. *)
Definition recognised (e : Experiment) : Prop :=
  state e = CONTROL_STATE \/
  state e = ENABLED_STATE \/
  (state e = GARGOYLE_STATE /\ switch_key_truthy (switch_key e) = true).

(** The visitor has an enrollment under the experiment name [n] with
    alternative [a]: a row of the table, or an entry of the session. *)
Definition has_enrollment (w : World) (n a : string) : Prop :=
  match user (request w) with
  | RegisteredUser pk => Enrollment_objects w !! (pk, n) = Some a
  | AnonymousUser => exists goals, session_enrollments w !! n = Some (a, goals)
  end.

(** How [record_goal] resolves the experiment of an enrollment: the foreign
    key of the row for a registered user, [experiment_manager] for an
    anonymous one. *)
Definition resolve_enrollment (env : Env) (w : World) (n : string)
    : option Experiment :=
  match user (request w) with
  | RegisteredUser _ => Experiment_objects env n
  | AnonymousUser => experiment_manager env n
  end.

(** The exception an unresolved enrollment raises in [record_goal]. *)
Definition unresolved_error (w : World) (n : string) : Exn :=
  match user (request w) with
  | RegisteredUser _ => DoesNotExist
  | AnonymousUser => KeyError n
  end.

(** No character of [s] is a colon. *)
Fixpoint colon_free (s : string) : bool :=
  match s with
  | EmptyString => true
  | String c s' => negb (Ascii.eqb c ":") && colon_free s'
  end.

(** A registered visitor with two enrollments, and an anonymous, verified
    visitor with a session key and one cached enrollment. *)
Definition enrolled_registered_world : World :=
  {| request := {| user := RegisteredUser 7;
                   HTTP_USER_AGENT := Some "Mozilla/5.0";
                   session := fresh_session |};
     Enrollment_objects := {[ (7%Z, "X") := "A"; (7%Z, "Y") := "B" ]};
     counter_store := ∅;
     trace := [] |}.

Definition verified_world : World :=
  world_of AnonymousUser (Some "Mozilla/5.0")
    {| session_key := Some "s1";
       experiments_verified_human := Some true;
       experiments_enrollments := Some {[ "X" := ("A", []) ]} |}.

(** An environment that knows no experiment at all. *)
Definition env_unknown : Env :=
  {| experiment_manager := fun _ => None;
     Experiment_objects := fun _ => None;
     gargoyle_is_active := fun _ _ => false;
     EXPERIMENTS_VERIFY_HUMAN := None;
     new_session_key := "k1";
     insert_outcome := InsertOk |}.

(** An environment with human verification switched off in the settings. *)
Definition env_no_verification (e : Experiment) : Env :=
  {| experiment_manager := fun _ => Some e;
     Experiment_objects := fun _ => Some e;
     gargoyle_is_active := fun _ _ => false;
     EXPERIMENTS_VERIFY_HUMAN := Some false;
     new_session_key := "k1";
     insert_outcome := InsertOk |}.

(** The world once [set_enrollment] has recorded the alternative: in the
    row of a registered user, in the session of an anonymous visitor. *)
Definition enrolled_world (e : Experiment) (alternative : string) (w : World)
    : World :=
  match user (request w) with
  | RegisteredUser pk =>
      set_table (<[(pk, name e) := alternative]> (Enrollment_objects w)) w
  | AnonymousUser => cached e alternative w
  end.

(** Between [w] and [w'] every counter kept its contributors and gained at
    most the visitor's own token, and the visitor's token is the same. *)
Definition counters_grow_by_token (env : Env) (w w' : World) : Prop :=
  participant_token env w' = participant_token env w /\
  forall key,
    contributors key w ⊆ contributors key w' /\
    contributors key w' ⊆ {[participant_token env w]} ∪ contributors key w.

(** A call of one of the four entry points of [WebUser]. *)
Inductive Operation : Type :=
  | op_get_enrollment (e : Experiment)
  | op_set_enrollment (e : Experiment) (alternative : string)
  | op_record_goal (goal_name : string)
  | op_confirm_human.

Definition run_operation (env : Env) (op : Operation) : M unit :=
  match op with
  | op_get_enrollment e => do _r <- get_enrollment env e; ret tt
  | op_set_enrollment e alternative => set_enrollment env e alternative
  | op_record_goal goal_name => record_goal env goal_name
  | op_confirm_human => confirm_human env
  end.

(** The operations in turn, until one raises. *)
Definition run_operations (env : Env) (ops : list Operation) : M unit :=
  for_each ops (run_operation env).

(** What a counting loop counts when the request stays the same from round
    to round: the decisions of the items in order, up to the first one that
    raises. *)
Fixpoint decided {A} (decide_item : A -> Request -> Outcome (option Counted))
    (items : list A) (r : Request) : list Counted :=
  match items with
  | [] => []
  | x :: items' =>
      match decide_item x r with
      | Raise _ => []
      | Return None => decided decide_item items' r
      | Return (Some c) => c :: decided decide_item items' r
      end
  end.

(** What [record_goal] counts for a visitor whose identifier is settled. *)
Definition goals_decided (env : Env) (goal_name : string) (w : World)
    : list Counted :=
  if _is_bot (request w) then []
  else
    match user (request w) with
    | RegisteredUser pk =>
        decided (goal_item_registered env goal_name)
          (objects_filter_user pk (Enrollment_objects w)) (request w)
    | AnonymousUser =>
        if _is_verified_human env (request w)
           && dict_truthy (experiments_enrollments (session (request w)))
        then decided (goal_item_anonymous env goal_name)
               (map_to_list (session_enrollments w)) (request w)
        else []
    end.

(** The visitor's identifier is settled: a registered user, or an
    anonymous visitor whose session already has a key. *)
Definition settled (w : World) : Prop :=
  (exists pk, user (request w) = RegisteredUser pk) \/
  has_session_key (session (request w)) = true.

(** No enrollment of the visitor that resolves to an experiment other than
    [e] yields, for the recorded goal, a key that is a goal key of [e]. *)
Definition shares_no_goal_key (env : Env) (w : World) (e : Experiment)
    (goal_name : string) : Prop :=
  forall n a e',
    has_enrollment w n a -> resolve_enrollment env w n = Some e' ->
    e' <> e ->
    forall a' g', GOAL_KEY (name e') a goal_name <> GOAL_KEY (name e) a' g'.




(** ** Basic facts *)

Lemma State_eqb_eq a b : State_eqb a b = true <-> a = b.
Proof.
  destruct a, b; simpl; split; intros H; try congruence; try discriminate.
  - f_equal. by apply Z.eqb_eq.
  - apply Z.eqb_eq. congruence.
Qed.

Lemma match_here_spec pat s :
  match_here pat s = true <->
  exists post, string_lower s = string_lower pat +:+ post.
Proof.
  revert s. induction pat as [|p pat IH]; intros s; simpl.
  - split; [intros _; by exists (string_lower s) | done].
  - destruct s as [|c s]; simpl.
    + split; [done | intros [post H]; discriminate].
    + rewrite andb_true_iff, Ascii.eqb_eq, IH. split.
      * intros [Hc [post Hs]]. exists post. by rewrite Hc, Hs.
      * intros [post H]. injection H as Hc Hs. split; [done | by exists post].
Qed.

Lemma search_literal_spec pat s :
  search_literal pat s = true <->
  exists pre post, string_lower s = pre +:+ string_lower pat +:+ post.
Proof.
  induction s as [|c s IH].
  - simpl. rewrite orb_false_r, match_here_spec. split.
    + intros [post H]. by exists "", post.
    + intros [pre [post H]]. destruct pre; [by exists post | discriminate].
  - cbn [search_literal]. rewrite orb_true_iff, match_here_spec, IH. split.
    + intros [[post H] | [pre [post H]]].
      * by exists "", post.
      * exists (String (ascii_lower c) pre), post. simpl. by rewrite H.
    + intros [pre [post H]]. destruct pre as [|c' pre].
      * left. by exists post.
      * right. simpl in H. injection H as _ H. by exists pre, post.
Qed.

Lemma BOT_REGEX_search_spec ua :
  BOT_REGEX_search ua = true <-> matches_crawler_signature ua.
Proof.
  unfold BOT_REGEX_search, matches_crawler_signature.
  rewrite existsb_exists. split.
  - intros [sig [Hin Hs]]. apply search_literal_spec in Hs as [pre [post H]].
    by exists sig, pre, post.
  - intros (sig & pre & post & Hin & H). exists sig. split; [done |].
    apply search_literal_spec. by exists pre, post.
Qed.

Lemma participant_identifier_eq env w :
  _participant_identifier env w =
  (Return (participant_token env w), ensure_session_key env w).
Proof.
  unfold _participant_identifier, participant_token, ensure_session_key,
    bind, get_world, ret, modify.
  destruct (user (request w)); [| done].
  by destruct (has_session_key (session (request w))).
Qed.

Lemma increment_participant_count_eq env e a w :
  _increment_participant_count env e a w =
  (Return tt,
   counted env (PARTICIPANT_KEY (name e) a)
     (experiment_incr_participant e a (user (request w))) w).
Proof.
  unfold _increment_participant_count, bind.
  rewrite participant_identifier_eq.
  unfold counters_increment_call, get_world, send, modify, counted,
    contributors, ensure_session_key.
  destruct (user (request w)) eqn:Hu; simpl; rewrite ?Hu; [| done].
  by destruct (has_session_key (session (request w))); simpl; rewrite ?Hu.
Qed.

Lemma increment_goal_count_eq env e a g w :
  _increment_goal_count env e a g w =
  (Return tt,
   counted env (GOAL_KEY (name e) a g)
     (goal_hit e a g (user (request w))) w).
Proof.
  unfold _increment_goal_count, bind.
  rewrite participant_identifier_eq.
  unfold counters_increment_call, get_world, send, modify, counted,
    contributors, ensure_session_key.
  destruct (user (request w)) eqn:Hu; simpl; rewrite ?Hu; [| done].
  by destruct (has_session_key (session (request w))); simpl; rewrite ?Hu.
Qed.

Lemma should_increment_pure env e w : exec (_should_increment env e) w = w.
Proof.
  unfold exec, _should_increment, bind, get_world, ret, raise.
  repeat (case_match; simpl; try done).
Qed.

(** *** What [ensure_session_key] and [counted] keep and change *)

Lemma ensure_session_key_user env w :
  user (request (ensure_session_key env w)) = user (request w).
Proof. unfold ensure_session_key. by repeat case_match. Qed.

Lemma ensure_session_key_agent env w :
  HTTP_USER_AGENT (request (ensure_session_key env w)) =
  HTTP_USER_AGENT (request w).
Proof. unfold ensure_session_key. by repeat case_match. Qed.

Lemma ensure_session_key_verified env w :
  experiments_verified_human (session (request (ensure_session_key env w))) =
  experiments_verified_human (session (request w)).
Proof. unfold ensure_session_key. by repeat case_match. Qed.

Lemma ensure_session_key_enrollments env w :
  experiments_enrollments (session (request (ensure_session_key env w))) =
  experiments_enrollments (session (request w)).
Proof. unfold ensure_session_key. by repeat case_match. Qed.

Lemma ensure_session_key_table env w :
  Enrollment_objects (ensure_session_key env w) = Enrollment_objects w.
Proof. unfold ensure_session_key. by repeat case_match. Qed.

Lemma ensure_session_key_counters env w :
  counter_store (ensure_session_key env w) = counter_store w.
Proof. unfold ensure_session_key. by repeat case_match. Qed.

Lemma ensure_session_key_trace env w :
  trace (ensure_session_key env w) = trace w.
Proof. unfold ensure_session_key. by repeat case_match. Qed.

Lemma ensure_session_key_registered env w pk :
  user (request w) = RegisteredUser pk -> ensure_session_key env w = w.
Proof. unfold ensure_session_key. by intros ->. Qed.

(** Once forced, the session key stays: the token is stable. *)
Lemma ensure_session_key_idem env w :
  session_key (session (request (ensure_session_key env (ensure_session_key env w)))) =
  session_key (session (request (ensure_session_key env w))).
Proof.
  unfold ensure_session_key.
  destruct (user (request w)) eqn:Hu; simpl; rewrite ?Hu; [| done].
  destruct (has_session_key (session (request w))) eqn:Hk; simpl;
    rewrite ?Hu, ?Hk; [done |].
  by destruct (has_session_key (session_save env (session (request w)))).
Qed.

Lemma participant_token_ensure env w :
  participant_token env (ensure_session_key env w) = participant_token env w.
Proof.
  unfold participant_token.
  rewrite ensure_session_key_user, ensure_session_key_idem. done.
Qed.

Lemma counted_user env key sig w :
  user (request (counted env key sig w)) = user (request w).
Proof. unfold counted. simpl. apply ensure_session_key_user. Qed.

Lemma counted_agent env key sig w :
  HTTP_USER_AGENT (request (counted env key sig w)) =
  HTTP_USER_AGENT (request w).
Proof. unfold counted. simpl. apply ensure_session_key_agent. Qed.

Lemma counted_verified env key sig w :
  experiments_verified_human (session (request (counted env key sig w))) =
  experiments_verified_human (session (request w)).
Proof. unfold counted. simpl. apply ensure_session_key_verified. Qed.

Lemma counted_enrollments env key sig w :
  experiments_enrollments (session (request (counted env key sig w))) =
  experiments_enrollments (session (request w)).
Proof. unfold counted. simpl. apply ensure_session_key_enrollments. Qed.

Lemma counted_table env key sig w :
  Enrollment_objects (counted env key sig w) = Enrollment_objects w.
Proof. unfold counted. simpl. apply ensure_session_key_table. Qed.

Lemma counted_trace env key sig w :
  trace (counted env key sig w) =
  trace w ++
  [counters_increment key (participant_token env w);
   sig (size ({[participant_token env w]} ∪ contributors key w))].
Proof.
  unfold counted, contributors. simpl.
  rewrite ensure_session_key_trace, ensure_session_key_counters.
  by rewrite <- app_assoc.
Qed.

Lemma counted_contributors env key sig w key' :
  contributors key' (counted env key sig w) =
  if decide (key = key')
  then {[participant_token env w]} ∪ contributors key w
  else contributors key' w.
Proof.
  unfold counted, contributors. simpl.
  rewrite ensure_session_key_counters, lookup_insert.
  by case_decide; subst.
Qed.

Lemma ensure_session_key_request env w w' :
  request w = request w' ->
  request (ensure_session_key env w) = request (ensure_session_key env w').
Proof.
  unfold ensure_session_key. intros H. rewrite <- H.
  destruct (user (request w)); [| done].
  destruct (has_session_key (session (request w))); [done |].
  unfold set_session. simpl. by rewrite <- H.
Qed.

Lemma participant_token_request env w w' :
  request w = request w' -> participant_token env w = participant_token env w'.
Proof.
  intros H. unfold participant_token.
  rewrite (ensure_session_key_request env w w' H). by rewrite H.
Qed.

Lemma counted_request env key sig w :
  request (counted env key sig w) = request (ensure_session_key env w).
Proof. done. Qed.

Lemma counted_token env key sig w :
  participant_token env (counted env key sig w) = participant_token env w.
Proof.
  rewrite <- (participant_token_ensure env w).
  apply participant_token_request, counted_request.
Qed.

Lemma counted_is_bot env key sig w :
  _is_bot (request (counted env key sig w)) = _is_bot (request w).
Proof. unfold _is_bot. by rewrite counted_agent. Qed.

Lemma counted_is_verified env key sig w :
  _is_verified_human env (request (counted env key sig w)) =
  _is_verified_human env (request w).
Proof. unfold _is_verified_human. by rewrite counted_verified. Qed.

Lemma emit_request ev w : request (emit ev w) = request w.
Proof. done. Qed.
Lemma emit_table ev w : Enrollment_objects (emit ev w) = Enrollment_objects w.
Proof. done. Qed.
Lemma emit_counters ev w : counter_store (emit ev w) = counter_store w.
Proof. done. Qed.
Lemma emit_contributors key ev w : contributors key (emit ev w) = contributors key w.
Proof. done. Qed.
Lemma emit_trace ev w : trace (emit ev w) = trace w ++ [ev].
Proof. done. Qed.
Lemma emit_token env ev w :
  participant_token env (emit ev w) = participant_token env w.
Proof. by apply participant_token_request. Qed.
Lemma set_table_request t w : request (set_table t w) = request w.
Proof. done. Qed.
Lemma set_table_table t w : Enrollment_objects (set_table t w) = t.
Proof. done. Qed.
Lemma set_table_counters t w : counter_store (set_table t w) = counter_store w.
Proof. done. Qed.
Lemma set_table_contributors key t w :
  contributors key (set_table t w) = contributors key w.
Proof. done. Qed.
Lemma set_table_trace t w : trace (set_table t w) = trace w.
Proof. done. Qed.
Lemma set_table_token env t w :
  participant_token env (set_table t w) = participant_token env w.
Proof. by apply participant_token_request. Qed.

Create Rewrite HintDb world.
#[global] Hint Rewrite emit_request emit_table emit_counters emit_contributors emit_trace
  emit_token set_table_request set_table_table set_table_counters
  set_table_contributors set_table_trace set_table_token
  counted_user counted_agent counted_verified counted_enrollments
  counted_table counted_trace counted_token counted_is_bot
  counted_is_verified : world.

Lemma increment_calls_app evs evs' :
  increment_calls (evs ++ evs') = increment_calls evs ++ increment_calls evs'.
Proof. apply omap_app. Qed.

Lemma new_events_app {A} (c : M A) w evs :
  trace (exec c w) = trace w ++ evs -> new_events c w = evs.
Proof. unfold new_events. intros ->. by rewrite drop_app_length. Qed.

(** ** Gating policy *)

(** C9: an experiment in GARGOYLE state whose [switch_key] is absent or
    empty makes [_should_increment] raise the unrecognised-state error
    instead of returning a boolean. *)
Theorem gargoyle_without_switch_key_raises env e w :
  state e = GARGOYLE_STATE ->
  switch_key e = None \/ switch_key e = Some "" ->
  _should_increment env e w = (Raise (ValueError GARGOYLE_STATE), w).
Proof.
  intros Hs Hk. unfold _should_increment. rewrite Hs. simpl.
  by destruct Hk as [-> | ->].
Qed.

Lemma gargoyle_without_switch_key_raises_witness :
  _should_increment (env_with exp_gargoyle_nokey true InsertOk)
    exp_gargoyle_nokey registered_world =
  (Raise (ValueError GARGOYLE_STATE), registered_world).
Proof.
  apply gargoyle_without_switch_key_raises; [reflexivity | right; reflexivity].
Defined.

(** C4, as stated, fails: in GARGOYLE state with an empty switch key the
    oracle may report the key active, and the decision is still an error. *)
Lemma gargoyle_decides_by_oracle_counterexample :
  ~ gargoyle_decides_by_oracle (env_with exp_gargoyle_nokey true InsertOk)
      exp_gargoyle_nokey registered_world.
Proof.
  intros H. destruct (H eq_refl) as [_ H']. specialize (H' eq_refl).
  discriminate H'.
Qed.

(** C4, amended: [_should_increment] changes nothing and decides on the
    state alone: [False] in CONTROL, [True] in ENABLED; in GARGOYLE with a
    non-empty switch key [True] when the oracle reports the key active for
    this request and [None] (falsy) otherwise; in GARGOYLE with an absent or
    empty switch key, and for any other state, the unrecognised-state
    error. *)
Theorem should_increment_decision env e w :
  exec (_should_increment env e) w = w /\
  (state e = CONTROL_STATE ->
   outcome (_should_increment env e) w = Return (Some false)) /\
  (state e = ENABLED_STATE ->
   outcome (_should_increment env e) w = Return (Some true)) /\
  (state e = GARGOYLE_STATE ->
   forall k, switch_key e = Some k -> k <> "" ->
   outcome (_should_increment env e) w =
   if gargoyle_is_active env k (request w)
   then Return (Some true) else Return None) /\
  (state e = GARGOYLE_STATE ->
   switch_key e = None \/ switch_key e = Some "" ->
   outcome (_should_increment env e) w = Raise (ValueError GARGOYLE_STATE)) /\
  (forall v, state e = OTHER_STATE v ->
   outcome (_should_increment env e) w = Raise (ValueError (OTHER_STATE v))).
Proof.
  split; [apply should_increment_pure |].
  unfold outcome, _should_increment.
  repeat split.
  - by intros ->.
  - by intros ->.
  - intros -> k -> Hk. simpl.
    assert (String.eqb k "" = false) as -> by by apply String.eqb_neq.
    unfold bind, get_world. simpl.
    by destruct (gargoyle_is_active env k (request w)).
  - intros -> [-> | ->]; done.
  - by intros v ->.
Qed.

Lemma should_increment_decision_witness :
  outcome (_should_increment (env_with exp_control true InsertOk) exp_control)
    registered_world = Return (Some false) /\
  outcome (_should_increment (env_with exp_enabled false InsertOk) exp_enabled)
    registered_world = Return (Some true) /\
  outcome (_should_increment (env_with exp_gargoyle true InsertOk) exp_gargoyle)
    registered_world = Return (Some true) /\
  outcome (_should_increment (env_with exp_gargoyle false InsertOk) exp_gargoyle)
    registered_world = Return None /\
  outcome (_should_increment (env_with exp_gargoyle_nokey true InsertOk)
             exp_gargoyle_nokey)
    registered_world = Raise (ValueError GARGOYLE_STATE) /\
  outcome (_should_increment (env_with exp_other true InsertOk) exp_other)
    registered_world = Raise (ValueError (OTHER_STATE 7)).
Proof.
  refine (conj _ (conj _ (conj _ (conj _ (conj _ _))))).
  - apply (should_increment_decision
             (env_with exp_control true InsertOk) exp_control registered_world).
    reflexivity.
  - apply (should_increment_decision
             (env_with exp_enabled false InsertOk) exp_enabled registered_world).
    reflexivity.
  - apply (proj1 (proj2 (proj2 (proj2 (should_increment_decision
             (env_with exp_gargoyle true InsertOk) exp_gargoyle
             registered_world)))) eq_refl "sw" eq_refl).
    discriminate.
  - apply (proj1 (proj2 (proj2 (proj2 (should_increment_decision
             (env_with exp_gargoyle false InsertOk) exp_gargoyle
             registered_world)))) eq_refl "sw" eq_refl).
    discriminate.
  - apply (should_increment_decision
             (env_with exp_gargoyle_nokey true InsertOk) exp_gargoyle_nokey
             registered_world); [reflexivity | right; reflexivity].
  - apply (should_increment_decision
             (env_with exp_other true InsertOk) exp_other registered_world).
    reflexivity.
Defined.

(** ** Enrollment lookup *)

(** C10: [get_enrollment] is read-only. Whatever the identity (bot,
    registered, anonymous) and the experiment, the world after the call
    (session, enrollment table, counter store, trace) is the world before. *)
Theorem get_enrollment_read_only env e w :
  exec (get_enrollment env e) w = w.
Proof.
  unfold exec, get_enrollment, bind, get_world, ret. simpl.
  repeat (case_match; simpl; try done).
Qed.

(** ** Bots *)

(** C5: when the user agent matches a crawler signature, [get_enrollment]
    returns [CONTROL_GROUP] whatever is stored, and [set_enrollment] and
    [record_goal] return at once leaving the session, the enrollment table,
    the counter store and the trace as they were. *)
Theorem bots_are_excluded env w ua e alternative goal_name :
  HTTP_USER_AGENT (request w) = Some ua ->
  matches_crawler_signature ua ->
  get_enrollment env e w = (Return (Some CONTROL_GROUP), w) /\
  set_enrollment env e alternative w = (Return tt, w) /\
  record_goal env goal_name w = (Return tt, w).
Proof.
  intros Hua Hm. apply BOT_REGEX_search_spec in Hm.
  assert (_is_bot (request w) = true) as Hbot.
  { unfold _is_bot. by rewrite Hua. }
  unfold get_enrollment, set_enrollment, record_goal, bind, get_world, ret.
  simpl. by rewrite Hbot.
Qed.

Lemma bots_are_excluded_witness :
  get_enrollment (env_with exp_enabled true InsertOk) exp_enabled bot_world =
    (Return (Some CONTROL_GROUP), bot_world) /\
  set_enrollment (env_with exp_enabled true InsertOk) exp_enabled "A" bot_world =
    (Return tt, bot_world) /\
  record_goal (env_with exp_enabled true InsertOk) "signup" bot_world =
    (Return tt, bot_world).
Proof.
  apply (bots_are_excluded _ bot_world
           "Mozilla/5.0 (compatible; Googlebot/2.1)").
  - reflexivity.
  - exists "Googlebot", "mozilla/5.0 (compatible; ", "/2.1)".
    split; [| reflexivity].
    simpl. tauto.
Defined.

(** ** Enrollment of registered users *)

Lemma set_table_id w : set_table (Enrollment_objects w) w = w.
Proof. by destruct w. Qed.

Lemma get_enrollment_registered env e w pk :
  _is_bot (request w) = false ->
  user (request w) = RegisteredUser pk ->
  get_enrollment env e w = (Return (Enrollment_objects w !! (pk, name e)), w).
Proof.
  intros Hbot Hu. unfold get_enrollment, bind, get_world, ret. simpl.
  rewrite Hbot, Hu. by destruct (Enrollment_objects w !! (pk, name e)).
Qed.

(** A call that loses the race returns at once. *)
Lemma set_enrollment_registered_race env e alternative w pk :
  _is_bot (request w) = false ->
  user (request w) = RegisteredUser pk ->
  loses_race env w pk e ->
  set_enrollment env e alternative w = (Return tt, w).
Proof.
  intros Hbot Hu [Hrow Hins].
  unfold set_enrollment, bind, get_world, attempt, get_or_create. simpl.
  rewrite Hbot, Hu. unfold bind, get_world. simpl. by rewrite Hrow, Hins.
Qed.

(** Any other call leaves the requested alternative in the row, counts the
    participant once and announces the enrollment. *)
Lemma set_enrollment_registered env e alternative w pk :
  _is_bot (request w) = false ->
  user (request w) = RegisteredUser pk ->
  ~ loses_race env w pk e ->
  set_enrollment env e alternative w =
  (Return tt,
   emit (experiment_user_added e (RegisteredUser pk) alternative)
     (counted env (PARTICIPANT_KEY (name e) alternative)
        (experiment_incr_participant e alternative (RegisteredUser pk))
        (set_table
           (<[(pk, name e) := alternative]> (Enrollment_objects w)) w))).
Proof.
  intros Hbot Hu Hrace.
  unfold set_enrollment, bind, get_world, attempt, get_or_create. simpl.
  rewrite Hbot, Hu. unfold bind, get_world. simpl.
  destruct (Enrollment_objects w !! (pk, name e)) as [existing |] eqn:Hrow.
  - simpl. destruct (String.eqb existing alternative) eqn:Heq; simpl.
    + apply String.eqb_eq in Heq as ->.
      rewrite (insert_id _ _ _ Hrow), set_table_id.
      rewrite increment_participant_count_eq. simpl. by rewrite Hu.
    + unfold enrollment_save, bind, get_world, modify. simpl.
      rewrite increment_participant_count_eq. simpl. by rewrite Hu.
  - destruct (insert_outcome env) eqn:Hins.
    + unfold modify, ret. simpl.
      assert (String.eqb alternative alternative = true) as ->
        by by apply String.eqb_eq.
      simpl. rewrite increment_participant_count_eq. simpl. by rewrite Hu.
    + exfalso. by apply Hrace.
Qed.

(** C1, as stated, fails: after "A" is stored, enrolling the same user in
    the same experiment with "B" leaves "B" stored. *)
Lemma reenrollment_keeps_alternative_counterexample :
  ~ reenrollment_keeps_alternative
      (env_with exp_enabled true InsertOk) exp_enabled "A" "B"
      registered_world.
Proof.
  unfold reenrollment_keeps_alternative. intros H.
  specialize (H eq_refl). vm_compute in H. discriminate H.
Qed.

(** C1, amended: for a registered, non-bot identity whose first
    [set_enrollment] call does not lose the duplicate-key race, the stored
    alternative is the one requested last: after enrolling with [a] the
    stored alternative is [a], and a later call with [b] overwrites it with
    [b]; only a later call with the same alternative leaves the table as it
    was. *)
Theorem reenrollment_overwrites env env' e a b w pk :
  _is_bot (request w) = false ->
  user (request w) = RegisteredUser pk ->
  ~ loses_race env w pk e ->
  let w1 := exec (set_enrollment env e a) w in
  let w2 := exec (set_enrollment env' e b) w1 in
  outcome (get_enrollment env e) w1 = Return (Some a) /\
  outcome (get_enrollment env' e) w2 = Return (Some b) /\
  (a = b -> Enrollment_objects w2 = Enrollment_objects w1).
Proof.
  intros Hbot Hu Hrace w1 w2.
  assert (w1 = emit (experiment_user_added e (RegisteredUser pk) a)
     (counted env (PARTICIPANT_KEY (name e) a)
        (experiment_incr_participant e a (RegisteredUser pk))
        (set_table (<[(pk, name e) := a]> (Enrollment_objects w)) w))) as Hw1.
  { unfold w1, exec. by rewrite (set_enrollment_registered _ _ _ _ pk). }
  assert (_is_bot (request w1) = false) as Hbot1.
  { rewrite Hw1. by autorewrite with world. }
  assert (user (request w1) = RegisteredUser pk) as Hu1.
  { rewrite Hw1. by autorewrite with world. }
  assert (Enrollment_objects w1 = <[(pk, name e) := a]> (Enrollment_objects w))
    as Ht1.
  { rewrite Hw1. by autorewrite with world. }
  assert (~ loses_race env' w1 pk e) as Hrace1.
  { intros [Hrow _]. by rewrite Ht1, lookup_insert_eq in Hrow. }
  assert (w2 = emit (experiment_user_added e (RegisteredUser pk) b)
     (counted env' (PARTICIPANT_KEY (name e) b)
        (experiment_incr_participant e b (RegisteredUser pk))
        (set_table (<[(pk, name e) := b]> (Enrollment_objects w1)) w1))) as Hw2.
  { unfold w2, exec. by rewrite (set_enrollment_registered _ _ _ _ pk). }
  assert (Enrollment_objects w2 = <[(pk, name e) := b]> (Enrollment_objects w1))
    as Ht2.
  { rewrite Hw2. by autorewrite with world. }
  split; [| split].
  - unfold outcome. rewrite (get_enrollment_registered _ _ _ pk) by done.
    simpl. by rewrite Ht1, lookup_insert_eq.
  - unfold outcome. rewrite (get_enrollment_registered _ _ _ pk).
    + simpl. by rewrite Ht2, lookup_insert_eq.
    + rewrite Hw2. by autorewrite with world.
    + rewrite Hw2. by autorewrite with world.
  - intros <-. rewrite Ht2, Ht1. apply insert_insert_eq.
Qed.

Lemma reenrollment_overwrites_witness :
  let env := env_with exp_enabled true InsertOk in
  let w1 := exec (set_enrollment env exp_enabled "A") registered_world in
  let w2 := exec (set_enrollment env exp_enabled "B") w1 in
  outcome (get_enrollment env exp_enabled) w1 = Return (Some "A") /\
  outcome (get_enrollment env exp_enabled) w2 = Return (Some "B") /\
  ("A" = "B" -> Enrollment_objects w2 = Enrollment_objects w1).
Proof.
  apply (reenrollment_overwrites _ _ exp_enabled "A" "B" registered_world 7).
  - reflexivity.
  - reflexivity.
  - intros [_ H]. discriminate H.
Defined.

(** C2, as stated, fails: a call that loses the duplicate-key race makes no
    call to the counter store at all. *)
Lemma fires_participant_increment_once_counterexample :
  ~ fires_participant_increment_once
      (env_with exp_enabled true InsertDuplicateKey) exp_enabled "A"
      registered_world.
Proof. intros [token H]. vm_compute in H. discriminate H. Qed.

(** C2, amended: for a registered, non-bot identity, every [set_enrollment]
    call that does not lose the duplicate-key race calls the counter store
    exactly once, for the participant key of the experiment and the
    requested alternative with the user's token, whatever the store already
    holds (no deduplication at this layer), then sends the two signals; a
    call that loses the race returns at once and changes nothing. *)
Theorem set_enrollment_registered_counts env e alternative w pk :
  _is_bot (request w) = false ->
  user (request w) = RegisteredUser pk ->
  (~ loses_race env w pk e ->
   let key := PARTICIPANT_KEY (name e) alternative in
   let token := "user:" +:+ pretty pk in
   outcome (set_enrollment env e alternative) w = Return tt /\
   trace (exec (set_enrollment env e alternative) w) =
   trace w ++
   [counters_increment key token;
    experiment_incr_participant e alternative (RegisteredUser pk)
      (size ({[token]} ∪ contributors key w));
    experiment_user_added e (RegisteredUser pk) alternative] /\
   increment_calls (new_events (set_enrollment env e alternative) w) =
   [(key, token)]) /\
  (loses_race env w pk e ->
   set_enrollment env e alternative w = (Return tt, w)).
Proof.
  intros Hbot Hu. split.
  - intros Hrace key token.
    assert (trace (exec (set_enrollment env e alternative) w) =
      trace w ++
      [counters_increment key token;
       experiment_incr_participant e alternative (RegisteredUser pk)
         (size ({[token]} ∪ contributors key w));
       experiment_user_added e (RegisteredUser pk) alternative]) as Htrace.
    { unfold exec. rewrite (set_enrollment_registered _ _ _ _ pk) by done.
      cbn [snd]. autorewrite with world.
      unfold participant_token. rewrite Hu.
      by rewrite <- app_assoc. }
    split; [| split; [done |]].
    + unfold outcome. by rewrite (set_enrollment_registered _ _ _ _ pk).
    + by rewrite (new_events_app _ _ _ Htrace).
  - by apply set_enrollment_registered_race.
Qed.

Lemma set_enrollment_registered_counts_witness :
  increment_calls
    (new_events
       (set_enrollment (env_with exp_enabled true InsertOk) exp_enabled "A")
       registered_world) =
  [(PARTICIPANT_KEY "X" "A", "user:" +:+ pretty 7%Z)] /\
  set_enrollment (env_with exp_enabled true InsertDuplicateKey) exp_enabled "A"
    registered_world = (Return tt, registered_world).
Proof.
  split.
  - apply (set_enrollment_registered_counts
             (env_with exp_enabled true InsertOk) exp_enabled "A"
             registered_world 7 eq_refl eq_refl).
    intros [_ H]. discriminate H.
  - apply (set_enrollment_registered_counts
             (env_with exp_enabled true InsertDuplicateKey) exp_enabled "A"
             registered_world 7 eq_refl eq_refl).
    split; reflexivity.
Defined.

(** ** Loops that count *)

Lemma same_visitor_refl r : same_visitor r r.
Proof. by repeat split. Qed.

Lemma same_visitor_trans r1 r2 r3 :
  same_visitor r1 r2 -> same_visitor r2 r3 -> same_visitor r1 r3.
Proof.
  intros (? & ? & ? & ?) (? & ? & ? & ?). repeat split; congruence.
Qed.

Lemma count_one_same_visitor env c w :
  same_visitor (request (count_one env c w)) (request w).
Proof.
  unfold count_one, same_visitor. by autorewrite with world.
Qed.

Lemma count_one_table env c w :
  Enrollment_objects (count_one env c w) = Enrollment_objects w.
Proof. unfold count_one. by autorewrite with world. Qed.

Lemma count_one_token env c w :
  participant_token env (count_one env c w) = participant_token env w.
Proof. unfold count_one. by autorewrite with world. Qed.

Lemma count_one_contributors env c w key :
  contributors key (count_one env c w) =
  if decide (counted_key c = key)
  then {[participant_token env w]} ∪ contributors key w
  else contributors key w.
Proof.
  unfold count_one. rewrite counted_contributors.
  by case_decide; subst.
Qed.

Lemma count_one_increment_calls env c w :
  increment_calls (trace (count_one env c w)) =
  increment_calls (trace w) ++ [(counted_key c, participant_token env w)].
Proof.
  unfold count_one. rewrite counted_trace, increment_calls_app.
  by destruct c.
Qed.

Lemma count_all_same_visitor env cs w :
  same_visitor (request (count_all env cs w)) (request w).
Proof.
  revert w. induction cs as [|c cs IH]; intros w; simpl.
  - apply same_visitor_refl.
  - eapply same_visitor_trans; [apply IH | apply count_one_same_visitor].
Qed.

Lemma count_all_table env cs w :
  Enrollment_objects (count_all env cs w) = Enrollment_objects w.
Proof.
  revert w. induction cs as [|c cs IH]; intros w; simpl; [done |].
  by rewrite IH, count_one_table.
Qed.

Lemma count_all_token env cs w :
  participant_token env (count_all env cs w) = participant_token env w.
Proof.
  revert w. induction cs as [|c cs IH]; intros w; simpl; [done |].
  by rewrite IH, count_one_token.
Qed.

(** Every increment of a call carries the one token of the visitor, so a
    key gains at most that token. *)
Lemma count_all_contributors env cs w key :
  contributors key (count_all env cs w) =
  if decide (key ∈ map counted_key cs)
  then {[participant_token env w]} ∪ contributors key w
  else contributors key w.
Proof.
  revert w. induction cs as [|c cs IH]; intros w.
  - case_decide as H; [by apply elem_of_nil in H | done].
  - change (count_all env (c :: cs) w)
      with (count_all env cs (count_one env c w)).
    rewrite IH, count_one_token, count_one_contributors.
    change (map counted_key (c :: cs))
      with (counted_key c :: map counted_key cs).
    destruct (decide (counted_key c = key)) as [Heq | Hne];
      destruct (decide (key ∈ map counted_key cs)) as [Hin | Hnin];
      destruct (decide (key ∈ counted_key c :: map counted_key cs))
        as [Hin' | Hnin']; try done.
    + by rewrite (assoc_L (∪)), union_idemp_L.
    + exfalso. apply Hnin'. by right.
    + exfalso. apply Hnin'. subst. left.
    + exfalso. apply Hnin'. by right.
    + exfalso. apply elem_of_cons in Hin' as [Hk | Hk]; [by subst | done].
Qed.

Lemma count_all_increment_calls env cs w :
  increment_calls (trace (count_all env cs w)) =
  increment_calls (trace w) ++
  map (fun c => (counted_key c, participant_token env w)) cs.
Proof.
  revert w. induction cs as [|c cs IH]; intros w; simpl.
  - by rewrite app_nil_r.
  - rewrite IH, count_one_token, count_one_increment_calls.
    by rewrite <- app_assoc.
Qed.

Lemma should_increment_gate env e w :
  _should_increment env e w = (gate env e (request w), w).
Proof.
  unfold gate, outcome, _should_increment, bind, get_world, ret, raise.
  repeat (case_match; simpl; try done).
Qed.

Lemma for_each_cons {A} (x : A) xs body w :
  for_each (x :: xs) body w =
  match body x w with
  | (Return _, w') => for_each xs body w'
  | (Raise err, w') => (Raise err, w')
  end.
Proof. done. Qed.

Section Loop.
Context {A : Type} (env : Env) (body : A -> M unit).
Context (decide_item : A -> Request -> Outcome (option Counted)).

Hypothesis body_eq : forall x w,
  body x w =
  match decide_item x (request w) with
  | Raise err => (Raise err, w)
  | Return None => (Return tt, w)
  | Return (Some c) => (Return tt, count_one env c w)
  end.

(** A loop whose rounds each raise, skip or count one event has counted a
    list of events when it stops, each decided by one of the items; when
    it completes, every item was decided. *)
Lemma for_each_counts items w :
  exists cs,
    exec (for_each items body) w = count_all env cs w /\
    Forall (fun c => exists x r,
              x ∈ items /\ same_visitor r (request w) /\
              decide_item x r = Return (Some c)) cs /\
    (outcome (for_each items body) w = Return tt ->
     forall x, x ∈ items ->
     exists r, same_visitor r (request w) /\
       (decide_item x r = Return None \/
        exists c, decide_item x r = Return (Some c) /\ c ∈ cs)).
Proof.
  revert w. induction items as [|x items IH]; intros w.
  - exists []. split; [done |]. split; [constructor |].
    intros _ x Hx. by apply elem_of_nil in Hx.
  - unfold exec, outcome. rewrite for_each_cons, body_eq.
    destruct (decide_item x (request w)) as [[c |] | err] eqn:Hd.
    + destruct (IH (count_one env c w)) as (cs & Hex & Hall & Hdone).
      exists (c :: cs). split; [exact Hex |]. split.
      * constructor.
        -- exists x, (request w).
           split; [left |]. split; [apply same_visitor_refl | done].
        -- eapply Forall_impl; [exact Hall |].
           intros c' (x' & r & Hx' & Hr & Hc'). exists x', r.
           split; [by right |]. split; [| done].
           eapply same_visitor_trans;
             [exact Hr | apply count_one_same_visitor].
      * intros Hout y Hy. apply elem_of_cons in Hy as [-> | Hy].
        -- exists (request w). split; [apply same_visitor_refl |].
           right. exists c. split; [done | left].
        -- destruct (Hdone Hout y Hy) as (r & Hr & Hcase).
           exists r. split.
           { eapply same_visitor_trans;
               [exact Hr | apply count_one_same_visitor]. }
           destruct Hcase as [? | (c' & ? & ?)]; [by left |].
           right. exists c'. split; [done | by right].
    + destruct (IH w) as (cs & Hex & Hall & Hdone).
      exists cs. split; [exact Hex |]. split.
      * eapply Forall_impl; [exact Hall |].
        intros c' (x' & r & Hx' & Hr & Hc'). exists x', r.
        split; [by right | done].
      * intros Hout y Hy. apply elem_of_cons in Hy as [-> | Hy].
        -- exists (request w). split; [apply same_visitor_refl | by left].
        -- by apply Hdone.
    + exists []. split; [done |]. split; [constructor |].
      simpl. intros Hout. discriminate Hout.
Qed.

End Loop.

(** *** The three loops of the module *)

Lemma promote_body_eq env (item : string * (string * list string)) w :
  (let '(experiment_name, (alternative, goals)) := item in
   do experiment <- experiment_manager_getitem env experiment_name;
   _increment_participant_count env experiment alternative) w =
  match promote_item env item (request w) with
  | Raise err => (Raise err, w)
  | Return None => (Return tt, w)
  | Return (Some c) => (Return tt, count_one env c w)
  end.
Proof.
  destruct item as [n [a g]].
  unfold promote_item, experiment_manager_getitem, bind. simpl.
  destruct (experiment_manager env n) as [e |]; [| done].
  unfold ret. by rewrite increment_participant_count_eq.
Qed.

Lemma goal_body_eq env goal_name (resolve : M Experiment)
    (resolved : Outcome Experiment) a w :
  resolve w = (resolved, w) ->
  (do experiment <- resolve;
   do go <- _should_increment env experiment;
   if truthy go
   then _increment_goal_count env experiment a goal_name
   else ret tt) w =
  match goal_item env goal_name resolved a (request w) with
  | Raise err => (Raise err, w)
  | Return None => (Return tt, w)
  | Return (Some c) => (Return tt, count_one env c w)
  end.
Proof.
  intros Hres. unfold goal_item, bind. rewrite Hres.
  destruct resolved as [e | err]; [| done].
  rewrite should_increment_gate.
  destruct (gate env e (request w)) as [go | err]; [| done].
  destruct (truthy go); [| done].
  by rewrite increment_goal_count_eq.
Qed.

Lemma goal_body_registered_eq env goal_name (item : string * string) w :
  (let '(experiment_name, alternative) := item in
   do experiment <- enrollment_experiment env experiment_name;
   do go <- _should_increment env experiment;
   if truthy go
   then _increment_goal_count env experiment alternative goal_name
   else ret tt) w =
  match goal_item_registered env goal_name item (request w) with
  | Raise err => (Raise err, w)
  | Return None => (Return tt, w)
  | Return (Some c) => (Return tt, count_one env c w)
  end.
Proof.
  destruct item as [n a]. apply goal_body_eq.
  unfold enrollment_experiment. simpl.
  by destruct (Experiment_objects env n).
Qed.

Lemma goal_body_anonymous_eq env goal_name
    (item : string * (string * list string)) w :
  (let '(experiment_name, (alternative, goals)) := item in
   do experiment <- experiment_manager_getitem env experiment_name;
   do go <- _should_increment env experiment;
   if truthy go
   then _increment_goal_count env experiment alternative goal_name
   else ret tt) w =
  match goal_item_anonymous env goal_name item (request w) with
  | Raise err => (Raise err, w)
  | Return None => (Return tt, w)
  | Return (Some c) => (Return tt, count_one env c w)
  end.
Proof.
  destruct item as [n [a g]]. apply goal_body_eq.
  unfold experiment_manager_getitem. simpl.
  by destruct (experiment_manager env n).
Qed.

Lemma elem_of_objects_filter_user (pk : Z) (t : gmap (Z * string) string)
    (n a : string) :
  (n, a) ∈ objects_filter_user pk t <-> t !! (pk, n) = Some a.
Proof.
  unfold objects_filter_user. rewrite list_elem_of_omap. split.
  - intros ([[u n'] a'] & Hin & Hf).
    apply elem_of_map_to_list in Hin.
    destruct (Z.eqb u pk) eqn:Hu; [| done].
    apply Z.eqb_eq in Hu as ->. by injection Hf as -> ->.
  - intros Hrow. exists ((pk, n), a). split.
    + by apply elem_of_map_to_list.
    + by rewrite Z.eqb_refl.
Qed.

Lemma dict_truthy_false_lookup o (n : string) :
  dict_truthy o = false -> default ∅ o !! n = None.
Proof.
  destruct o as [d |]; simpl; [| done].
  intros H. apply negb_false_iff, bool_decide_eq_true in H as ->. done.
Qed.

(** *** Counter keys *)

Lemma last_char_app_r s t c :
  last_char t = Some c -> last_char (s +:+ t) = Some c.
Proof. intros H. induction s as [|c' s IH]; simpl; [done | by rewrite IH]. Qed.

Lemma PARTICIPANT_KEY_last n a : last_char (PARTICIPANT_KEY n a) = Some "t"%char.
Proof. unfold PARTICIPANT_KEY. by do 3 apply last_char_app_r. Qed.

Lemma GOAL_KEY_last n a g : last_char (GOAL_KEY n a g) = Some "l"%char.
Proof. unfold GOAL_KEY. by do 5 apply last_char_app_r. Qed.

(** A participant key is never a goal key. *)
Lemma PARTICIPANT_KEY_not_GOAL_KEY n a n' a' g :
  PARTICIPANT_KEY n a <> GOAL_KEY n' a' g.
Proof.
  intros H. apply (f_equal last_char) in H.
  rewrite PARTICIPANT_KEY_last, GOAL_KEY_last in H. discriminate H.
Qed.

(** *** The trace and the store after counting *)

Lemma count_all_trace env cs w :
  exists evs,
    trace (count_all env cs w) = trace w ++ evs /\
    increment_calls evs =
      map (fun c => (counted_key c, participant_token env w)) cs /\
    Forall (fun ev => exists c, c ∈ cs /\
              (ev = counters_increment (counted_key c) (participant_token env w)
               \/ exists n, ev = counted_signal c (user (request w)) n)) evs.
Proof.
  revert w. induction cs as [|c cs IH]; intros w.
  - exists []. by rewrite app_nil_r.
  - change (count_all env (c :: cs) w)
      with (count_all env cs (count_one env c w)).
    destruct (IH (count_one env c w)) as (evs & Htr & Hinc & Hall).
    destruct (count_one_same_visitor env c w) as (Hu & _).
    rewrite count_one_token, Hu in *.
    eexists. split; [| split].
    + rewrite Htr. unfold count_one. rewrite counted_trace.
      rewrite <- app_assoc. reflexivity.
    + rewrite increment_calls_app, Hinc. by destruct c.
    + apply Forall_app. split.
      * repeat constructor.
        -- exists c. split; [left | by left].
        -- exists c. split; [left | right; eauto].
      * eapply Forall_impl; [exact Hall |].
        intros ev (c' & Hc' & Hev). exists c'. split; [by right | done].
Qed.

(** An increment whose token already contributed leaves the store as it
    is: deduplication per (key, token). *)
Lemma count_one_counter_store_dedup env c w :
  participant_token env w ∈ contributors (counted_key c) w ->
  counter_store (count_one env c w) = counter_store w.
Proof.
  unfold count_one, counted, contributors. simpl.
  rewrite ensure_session_key_counters. intros Hin.
  destruct (counter_store w !! counted_key c) as [tokens |] eqn:Hrow;
    simpl in *; [| by apply not_elem_of_empty in Hin].
  apply insert_id. rewrite Hrow. f_equal.
  symmetry. by apply subseteq_union_1_L, singleton_subseteq_l.
Qed.

Lemma count_all_counter_store_dedup env cs w :
  (forall c, c ∈ cs ->
     participant_token env w ∈ contributors (counted_key c) w) ->
  counter_store (count_all env cs w) = counter_store w.
Proof.
  revert w. induction cs as [|c cs IH]; intros w Hin; [done |].
  change (count_all env (c :: cs) w)
    with (count_all env cs (count_one env c w)).
  assert (counter_store (count_one env c w) = counter_store w) as Hone.
  { apply count_one_counter_store_dedup, Hin. left. }
  rewrite IH; [done |].
  intros c' Hc'. rewrite count_one_token.
  unfold contributors. rewrite Hone. apply Hin. by right.
Qed.

Lemma ensure_session_key_value env w :
  session_key (session (request (ensure_session_key env w))) =
  match user (request w) with
  | RegisteredUser _ => session_key (session (request w))
  | AnonymousUser =>
      if has_session_key (session (request w))
      then session_key (session (request w))
      else Some (new_session_key env)
  end.
Proof. unfold ensure_session_key. by repeat case_match. Qed.

Lemma participant_token_session env w w' :
  user (request w) = user (request w') ->
  session_key (session (request w)) = session_key (session (request w')) ->
  participant_token env w = participant_token env w'.
Proof.
  intros Hu Hk. unfold participant_token.
  rewrite !ensure_session_key_value. unfold has_session_key.
  by rewrite <- Hu, <- Hk.
Qed.

(** ** Human verification *)

Lemma confirmed_token env w :
  participant_token env (confirmed w) = participant_token env w.
Proof. by apply participant_token_session. Qed.

Lemma confirm_human_eq env w :
  confirm_human env w =
  if dict_truthy (experiments_enrollments (session (request w)))
  then for_each (map_to_list (session_enrollments w))
         (fun item =>
            let '(experiment_name, (alternative, goals)) := item in
            do experiment <- experiment_manager_getitem env experiment_name;
            _increment_participant_count env experiment alternative)
         (confirmed w)
  else (Return tt, confirmed w).
Proof.
  unfold confirm_human, bind, get_world, modify, send. simpl.
  by destruct (dict_truthy _).
Qed.

(** What [confirm_human] counts: participants only, one per cached
    enrollment whose experiment the manager knows. *)
Lemma confirm_human_counts env w :
  exists cs,
    exec (confirm_human env) w = count_all env cs (confirmed w) /\
    Forall (fun c => exists n a g e,
              session_enrollments w !! n = Some (a, g) /\
              experiment_manager env n = Some e /\
              c = CountedParticipant e a) cs /\
    (outcome (confirm_human env) w = Return tt ->
     forall n a g, session_enrollments w !! n = Some (a, g) ->
     exists e, experiment_manager env n = Some e /\
               CountedParticipant e a ∈ cs).
Proof.
  unfold exec, outcome. rewrite confirm_human_eq.
  destruct (dict_truthy _) eqn:Hd.
  - destruct (for_each_counts env _ (promote_item env) (promote_body_eq env)
                (map_to_list (session_enrollments w)) (confirmed w))
      as (cs & Hex & Hall & Hdone).
    exists cs. split; [exact Hex |]. split.
    + eapply Forall_impl; [exact Hall |].
      intros c ([n [a g]] & r & Hin & _ & Hc).
      apply elem_of_map_to_list in Hin.
      unfold promote_item in Hc. simpl in Hc.
      destruct (experiment_manager env n) as [e |] eqn:He; [| done].
      exists n, a, g, e. repeat split; try done. congruence.
    + intros Hout n a g Hrow.
      destruct (Hdone Hout (n, (a, g))) as (r & _ & Hcase).
      { by apply elem_of_map_to_list. }
      unfold promote_item in Hcase. simpl in Hcase.
      destruct (experiment_manager env n) as [e |];
        [| by destruct Hcase as [? | (? & ? & ?)]].
      exists e. split; [done |].
      destruct Hcase as [Hc | (c & Hc & Hin)]; [done |].
      by injection Hc as <-.
  - exists []. split; [done |]. split; [constructor |].
    intros _ n a g Hrow. unfold session_enrollments in Hrow.
    by rewrite (dict_truthy_false_lookup _ n Hd) in Hrow.
Qed.



Lemma count_all_enrollments env cs w :
  session_enrollments (count_all env cs w) = session_enrollments w.
Proof.
  unfold session_enrollments.
  by destruct (count_all_same_visitor env cs w) as (_ & _ & _ & ->).
Qed.




(** ** Goals *)

Lemma gate_gargoyle env e r k :
  state e = GARGOYLE_STATE -> switch_key e = Some k -> k <> "" ->
  gate env e r =
  if gargoyle_is_active env k r then Return (Some true) else Return None.
Proof.
  intros Hs Hk Hne. unfold gate, outcome, _should_increment.
  rewrite Hs, Hk. simpl.
  assert (String.eqb k "" = false) as -> by by apply String.eqb_neq.
  unfold bind, get_world. simpl. by destruct (gargoyle_is_active env k r).
Qed.

Lemma gate_enabled env e r :
  state e = ENABLED_STATE -> gate env e r = Return (Some true).
Proof. intros Hs. unfold gate, outcome, _should_increment. by rewrite Hs. Qed.

Lemma goal_item_counted env goal_name resolved a r c :
  goal_item env goal_name resolved a r = Return (Some c) ->
  exists e go, resolved = Return e /\ gate env e r = Return go /\
               truthy go = true /\ c = CountedGoal e a goal_name.
Proof.
  unfold goal_item. destruct resolved as [e | err]; [| done].
  destruct (gate env e r) as [go | err] eqn:Hg; [| done].
  destruct (truthy go) eqn:Ht; [| done].
  intros H. injection H as <-. by exists e, go.
Qed.

Lemma goal_item_skipped env goal_name resolved a r :
  goal_item env goal_name resolved a r = Return None ->
  exists e go, resolved = Return e /\ gate env e r = Return go /\
               truthy go = false.
Proof.
  unfold goal_item. destruct resolved as [e | err]; [| done].
  destruct (gate env e r) as [go | err] eqn:Hg; [| done].
  destruct (truthy go) eqn:Ht; [done |].
  intros _. by exists e, go.
Qed.

Lemma record_goal_eq env goal_name w :
  record_goal env goal_name w =
  if _is_bot (request w) then (Return tt, w)
  else
    match user (request w) with
    | RegisteredUser pk =>
        for_each (objects_filter_user pk (Enrollment_objects w))
          (fun item =>
             let '(experiment_name, alternative) := item in
             do experiment <- enrollment_experiment env experiment_name;
             do go <- _should_increment env experiment;
             if truthy go
             then _increment_goal_count env experiment alternative goal_name
             else ret tt) w
    | AnonymousUser =>
        if _is_verified_human env (request w)
           && dict_truthy (experiments_enrollments (session (request w)))
        then
          for_each (map_to_list (session_enrollments w))
            (fun item =>
               let '(experiment_name, (alternative, goals)) := item in
               do experiment <- experiment_manager_getitem env experiment_name;
               do go <- _should_increment env experiment;
               if truthy go
               then _increment_goal_count env experiment alternative goal_name
               else ret tt) w
        else (Return tt, w)
    end.
Proof.
  unfold record_goal, bind, get_world, ret. simpl.
  destruct (_is_bot (request w)); [done |].
  destruct (user (request w)) as [| pk].
  - destruct (_is_verified_human env (request w)); [| done].
    by destruct (dict_truthy _).
  - by destruct (objects_filter_user pk (Enrollment_objects w)).
Qed.

(** What [record_goal] counts: goals only, each for an experiment whose
    gate was open for this visitor; when the call completes, the gate of
    every enrollment of a participating visitor was consulted and its goal
    counted if open. *)
Lemma record_goal_counts env goal_name w :
  exists cs,
    exec (record_goal env goal_name) w = count_all env cs w /\
    Forall (fun c => exists e a r go,
              same_visitor r (request w) /\ gate env e r = Return go /\
              truthy go = true /\ c = CountedGoal e a goal_name) cs /\
    (outcome (record_goal env goal_name) w = Return tt ->
     _is_bot (request w) = false -> verified_if_anonymous env w ->
     forall e a, enrolled_in env w e a ->
     exists r go, same_visitor r (request w) /\ gate env e r = Return go /\
                  (truthy go = true -> CountedGoal e a goal_name ∈ cs)).
Proof.
  unfold exec, outcome, enrolled_in, verified_if_anonymous.
  rewrite record_goal_eq.
  destruct (_is_bot (request w)) eqn:Hbot.
  { exists []. split; [done |]. split; [constructor | done]. }
  destruct (user (request w)) as [| pk] eqn:Hu.
  - destruct (_is_verified_human env (request w)) eqn:Hv; simpl.
    2: { exists []. split; [done |]. split; [constructor |].
         intros _ _ Hver. by specialize (Hver eq_refl). }
    destruct (dict_truthy _) eqn:Hd.
    2: { exists []. split; [done |]. split; [constructor |].
         intros _ _ _ e a [[g Hrow] _]. unfold session_enrollments in Hrow.
         by rewrite (dict_truthy_false_lookup _ _ Hd) in Hrow. }
    destruct (for_each_counts env _ (goal_item_anonymous env goal_name)
                (goal_body_anonymous_eq env goal_name)
                (map_to_list (session_enrollments w)) w)
      as (cs & Hex & Hall & Hdone).
    exists cs. split; [exact Hex |]. split.
    + eapply Forall_impl; [exact Hall |].
      intros c ([n [a g]] & r & _ & Hr & Hc).
      apply goal_item_counted in Hc as (e & go & _ & Hg & Ht & ->).
      by exists e, a, r, go.
    + intros Hout _ _ e a [[g Hrow] Hman].
      destruct (Hdone Hout (name e, (a, g))) as (r & Hr & Hcase).
      { by apply elem_of_map_to_list. }
      unfold goal_item_anonymous in Hcase. cbn [fst snd] in Hcase.
      rewrite Hman in Hcase.
      destruct Hcase as [Hskip | (c & Hc & Hin)].
      * apply goal_item_skipped in Hskip as (e' & go & He' & Hg & Ht).
        injection He' as <-. exists r, go. split; [done |]. split; [done |].
        congruence.
      * apply goal_item_counted in Hc as (e' & go & He' & Hg & Ht & ->).
        injection He' as <-. by exists r, go.
  - destruct (for_each_counts env _ (goal_item_registered env goal_name)
                (goal_body_registered_eq env goal_name)
                (objects_filter_user pk (Enrollment_objects w)) w)
      as (cs & Hex & Hall & Hdone).
    exists cs. split; [exact Hex |]. split.
    + eapply Forall_impl; [exact Hall |].
      intros c ([n a] & r & _ & Hr & Hc).
      apply goal_item_counted in Hc as (e & go & _ & Hg & Ht & ->).
      by exists e, a, r, go.
    + intros Hout _ _ e a [Hrow Hobj].
      destruct (Hdone Hout (name e, a)) as (r & Hr & Hcase).
      { by apply elem_of_objects_filter_user. }
      unfold goal_item_registered in Hcase. cbn [fst snd] in Hcase.
      rewrite Hobj in Hcase.
      destruct Hcase as [Hskip | (c & Hc & Hin)].
      * apply goal_item_skipped in Hskip as (e' & go & He' & Hg & Ht).
        injection He' as <-. exists r, go. split; [done |]. split; [done |].
        congruence.
      * apply goal_item_counted in Hc as (e' & go & He' & Hg & Ht & ->).
        injection He' as <-. by exists r, go.
Qed.

(** ** Enrollment of anonymous visitors *)

Lemma set_enrollment_anonymous env e alternative w :
  _is_bot (request w) = false ->
  user (request w) = AnonymousUser ->
  set_enrollment env e alternative w =
  (Return tt,
   emit (experiment_user_added e AnonymousUser alternative)
     (if _is_verified_human env (request w)
      then count_one env (CountedParticipant e alternative)
             (cached e alternative w)
      else cached e alternative w)).
Proof.
  intros Hbot Hu.
  unfold set_enrollment, bind, get_world, modify, send. simpl.
  rewrite Hbot, Hu.
  change (_is_verified_human env
            {| user := user (request w);
               HTTP_USER_AGENT := HTTP_USER_AGENT (request w);
               session :=
                 set_enrollments
                   (<[name e := (alternative, [])]>
                      (default ∅
                         (experiments_enrollments (session (request w)))))
                   (session (request w)) |})
    with (_is_verified_human env (request w)).
  destruct (_is_verified_human env (request w)); [| done].
  rewrite increment_participant_count_eq. unfold count_one, cached. simpl.
  by rewrite Hu.
Qed.

Lemma cached_token env e alternative w :
  participant_token env (cached e alternative w) = participant_token env w.
Proof. by apply participant_token_session. Qed.

(** [set_enrollment] of a participating visitor that does not lose the
    race completes and makes one call to the counter store, whatever the
    state of the experiment. *)
Lemma set_enrollment_counts env e alternative w :
  _is_bot (request w) = false ->
  verified_if_anonymous env w ->
  (forall pk, user (request w) = RegisteredUser pk -> ~ loses_race env w pk e) ->
  outcome (set_enrollment env e alternative) w = Return tt /\
  increment_calls (new_events (set_enrollment env e alternative) w) =
  [(PARTICIPANT_KEY (name e) alternative, participant_token env w)].
Proof.
  intros Hbot Hver Hrace. unfold outcome.
  destruct (user (request w)) as [| pk] eqn:Hu.
  - assert (trace (exec (set_enrollment env e alternative) w) =
      trace w ++
      [counters_increment (PARTICIPANT_KEY (name e) alternative)
         (participant_token env w);
       experiment_incr_participant e alternative AnonymousUser
         (size ({[participant_token env w]}
                ∪ contributors (PARTICIPANT_KEY (name e) alternative) w));
       experiment_user_added e AnonymousUser alternative]) as Htrace.
    { unfold exec. rewrite set_enrollment_anonymous by done.
      rewrite (Hver Hu). cbn [snd]. unfold count_one.
      rewrite emit_trace, counted_trace, cached_token, <- app_assoc.
      change (user (request (cached e alternative w)))
        with (user (request w)).
      by rewrite Hu. }
    rewrite set_enrollment_anonymous by done.
    split; [done |]. by rewrite (new_events_app _ _ _ Htrace).
  - assert (trace (exec (set_enrollment env e alternative) w) =
      trace w ++
      [counters_increment (PARTICIPANT_KEY (name e) alternative)
         (participant_token env w);
       experiment_incr_participant e alternative (RegisteredUser pk)
         (size ({[participant_token env w]}
                ∪ contributors (PARTICIPANT_KEY (name e) alternative) w));
       experiment_user_added e (RegisteredUser pk) alternative]) as Htrace.
    { unfold exec. rewrite (set_enrollment_registered _ _ _ _ pk) by auto.
      cbn [snd]. autorewrite with world. by rewrite <- app_assoc. }
    rewrite (set_enrollment_registered _ _ _ _ pk) by auto.
    split; [done |]. by rewrite (new_events_app _ _ _ Htrace).
Qed.

(** ** Gargoyle gating *)

(** C3, as stated, fails: a registered user enrolls in a GARGOYLE
    experiment whose switch is inactive, and the participant counter of the
    experiment goes from 0 to 1. *)
Lemma inactive_switch_blocks_participant_counterexample :
  ~ inactive_switch_blocks_participant
      (env_with exp_gargoyle false InsertOk) exp_gargoyle "A" registered_world.
Proof.
  intros H. specialize (H "sw" eq_refl eq_refl eq_refl).
  vm_compute in H. discriminate H.
Qed.

Lemma new_events_count_all {A} (c : M A) env cs w :
  exec c w = count_all env cs w ->
  increment_calls (new_events c w) =
  map (fun x => (counted_key x, participant_token env w)) cs.
Proof.
  intros Hex. destruct (count_all_trace env cs w) as (evs & Htr & Hinc & _).
  rewrite <- Hex in Htr. by rewrite (new_events_app _ _ _ Htr).
Qed.

Lemma same_visitor_is_bot r r' :
  same_visitor r r' -> _is_bot r = _is_bot r'.
Proof. intros (_ & Hua & _). unfold _is_bot. by rewrite Hua. Qed.

Lemma same_visitor_is_verified env r r' :
  same_visitor r r' -> _is_verified_human env r = _is_verified_human env r'.
Proof. intros (_ & _ & Hv & _). unfold _is_verified_human. by rewrite Hv. Qed.

Lemma count_all_enrolled_in env env' cs w e a :
  enrolled_in env' w e a -> enrolled_in env' (count_all env cs w) e a.
Proof.
  unfold enrolled_in.
  destruct (count_all_same_visitor env cs w) as (-> & _).
  by rewrite count_all_table, count_all_enrollments.
Qed.

(** Every goal [record_goal] counts comes from one of the visitor's
    enrollments, resolved to an experiment whose gate was open. *)
Lemma record_goal_counts_enrollments env goal_name w :
  exists cs,
    exec (record_goal env goal_name) w = count_all env cs w /\
    Forall (fun c => exists n a e r go,
              has_enrollment w n a /\ resolve_enrollment env w n = Some e /\
              same_visitor r (request w) /\ gate env e r = Return go /\
              truthy go = true /\ c = CountedGoal e a goal_name) cs.
Proof.
  unfold exec, has_enrollment, resolve_enrollment.
  rewrite record_goal_eq.
  destruct (_is_bot (request w)).
  { exists []. split; [done | constructor]. }
  destruct (user (request w)) as [| pk].
  - destruct (_is_verified_human env (request w) && dict_truthy _).
    2: { exists []. split; [done | constructor]. }
    destruct (for_each_counts env _ (goal_item_anonymous env goal_name)
                (goal_body_anonymous_eq env goal_name)
                (map_to_list (session_enrollments w)) w)
      as (cs & Hex & Hall & _).
    exists cs. split; [exact Hex |].
    eapply Forall_impl; [exact Hall |].
    intros c ([n [a g]] & r & Hin & Hr & Hc).
    apply elem_of_map_to_list in Hin.
    unfold goal_item_anonymous in Hc. cbn [fst snd] in Hc.
    apply goal_item_counted in Hc as (e & go & Hres & Hg & Ht & ->).
    exists n, a, e, r, go. split; [by exists g |].
    split; [| done].
    destruct (experiment_manager env n);
      [by injection Hres as -> | discriminate Hres].
  - destruct (for_each_counts env _ (goal_item_registered env goal_name)
                (goal_body_registered_eq env goal_name)
                (objects_filter_user pk (Enrollment_objects w)) w)
      as (cs & Hex & Hall & _).
    exists cs. split; [exact Hex |].
    eapply Forall_impl; [exact Hall |].
    intros c ([n a] & r & Hin & Hr & Hc).
    apply elem_of_objects_filter_user in Hin.
    unfold goal_item_registered in Hc. cbn [fst snd] in Hc.
    apply goal_item_counted in Hc as (e & go & Hres & Hg & Ht & ->).
    exists n, a, e, r, go. split; [done |].
    split; [| done].
    destruct (Experiment_objects env n);
      [by injection Hres as -> | discriminate Hres].
Qed.

(** C3, amended: take a GARGOYLE experiment [e] with a non-empty switch
    key. While the oracle reports the switch inactive for the visitor, and
    provided no enrollment of the visitor in another experiment yields a
    goal key of [e], [record_goal] leaves every participant counter and
    every goal counter of [e] with exactly the contributors it had, even
    for an enrolled visitor. Once the oracle reports the switch active, a
    [record_goal] call by a non-bot visitor, registered or verified human,
    enrolled in [e], that completes, counts the goal for the enrolled
    alternative, with no enrollment call in between. [set_enrollment] is
    not gated: under the inactive switch a call by a non-bot visitor,
    verified human if anonymous and not losing the race if registered,
    still counts the participant of [e]. *)
Theorem gargoyle_gating env env' goal_name alternative w e k a :
  state e = GARGOYLE_STATE -> switch_key e = Some k -> k <> "" ->
  (forall r, same_visitor r (request w) -> gargoyle_is_active env k r = false) ->
  (forall r, same_visitor r (request w) -> gargoyle_is_active env' k r = true) ->
  let w1 := exec (record_goal env goal_name) w in
  let w2 := exec (record_goal env' goal_name) w1 in
  (shares_no_goal_key env w e goal_name ->
   forall a',
     contributors (PARTICIPANT_KEY (name e) a') w1 =
       contributors (PARTICIPANT_KEY (name e) a') w /\
     forall g',
       contributors (GOAL_KEY (name e) a' g') w1 =
         contributors (GOAL_KEY (name e) a' g') w) /\
  (_is_bot (request w) = false ->
   verified_if_anonymous env' w ->
   enrolled_in env' w e a ->
   outcome (record_goal env' goal_name) w1 = Return tt ->
   (GOAL_KEY (name e) a goal_name, participant_token env' w1)
     ∈ increment_calls (new_events (record_goal env' goal_name) w1) /\
   participant_token env' w1 ∈ contributors (GOAL_KEY (name e) a goal_name) w2) /\
  (_is_bot (request w) = false ->
   verified_if_anonymous env w ->
   (forall pk, user (request w) = RegisteredUser pk -> ~ loses_race env w pk e) ->
   increment_calls (new_events (set_enrollment env e alternative) w) =
     [(PARTICIPANT_KEY (name e) alternative, participant_token env w)] /\
   participant_token env w
     ∈ contributors (PARTICIPANT_KEY (name e) alternative)
         (exec (set_enrollment env e alternative) w)).
Proof.
  intros Hs Hk Hne Hoff Hon w1 w2.
  split; [| split].
  - intros Hshare.
    destruct (record_goal_counts_enrollments env goal_name w)
      as (cs & Hex & Hall).
    fold w1 in Hex. rewrite Forall_forall in Hall.
    assert (forall key,
              (forall c, c ∈ cs -> counted_key c <> key) ->
              contributors key w1 = contributors key w) as Hsame.
    { intros key Hkey. rewrite Hex, count_all_contributors.
      case_decide as Hin; [| done].
      apply list_elem_of_fmap in Hin as (c & -> & Hc).
      by destruct (Hkey c Hc). }
    intros a'. split.
    + apply Hsame. intros c Hc.
      destruct (Hall c Hc) as (n & a0 & e' & r & go & _ & _ & _ & _ & _ & ->).
      intros Heq. symmetry in Heq.
      by apply PARTICIPANT_KEY_not_GOAL_KEY in Heq.
    + intros g'. apply Hsame. intros c Hc.
      destruct (Hall c Hc)
        as (n & a0 & e' & r & go & Henr & Hres & Hr & Hg & Ht & ->).
      simpl. apply (Hshare n a0 e' Henr Hres).
      intros ->.
      rewrite (gate_gargoyle _ _ _ k), (Hoff r Hr) in Hg by done.
      injection Hg as <-. discriminate Ht.
  - intros Hbot Hver Henr Hout.
    destruct (record_goal_counts env goal_name w) as (cs & Hex & _).
    fold w1 in Hex.
    destruct (record_goal_counts env' goal_name w1)
      as (cs' & Hex' & _ & Hdone).
    pose proof (count_all_same_visitor env cs w) as Hsame.
    rewrite <- Hex in Hsame.
    assert (_is_bot (request w1) = false) as Hbot1
      by by rewrite (same_visitor_is_bot _ _ Hsame).
    assert (verified_if_anonymous env' w1) as Hver1.
    { intros Hu. rewrite (same_visitor_is_verified _ _ _ Hsame).
      apply Hver. destruct Hsame as (<- & _). exact Hu. }
    assert (enrolled_in env' w1 e a) as Henr1.
    { rewrite Hex. by apply count_all_enrolled_in. }
    destruct (Hdone Hout Hbot1 Hver1 e a Henr1) as (r & go & Hr & Hg & Hin).
    assert (same_visitor r (request w)) as Hr'
      by (eapply same_visitor_trans; eassumption).
    rewrite (gate_gargoyle _ _ _ k), (Hon r Hr') in Hg by done.
    injection Hg as <-. specialize (Hin eq_refl).
    split.
    + rewrite (new_events_count_all _ env' cs' w1 Hex').
      apply list_elem_of_fmap. by exists (CountedGoal e a goal_name).
    + fold w2 in Hex'. rewrite Hex', count_all_contributors.
      assert (GOAL_KEY (name e) a goal_name ∈ map counted_key cs').
      { apply list_elem_of_fmap. by exists (CountedGoal e a goal_name). }
      case_decide; [| done].
      apply elem_of_union_l. by apply elem_of_singleton.
  - intros Hbot Hver0 Hrace.
    split; [by apply set_enrollment_counts |].
    destruct (user (request w)) as [| pk] eqn:Hu.
    + unfold exec. rewrite set_enrollment_anonymous, (Hver0 Hu) by done.
      cbn [snd]. rewrite emit_contributors, count_one_contributors.
      rewrite cached_token, decide_True by done.
      apply elem_of_union_l. by apply elem_of_singleton.
    + unfold exec. rewrite (set_enrollment_registered _ _ _ _ pk) by auto.
      cbn [snd]. rewrite emit_contributors, counted_contributors.
      rewrite set_table_token, decide_True by done.
      apply elem_of_union_l. by apply elem_of_singleton.
Qed.

Lemma gargoyle_gating_witness :
  let env := env_with exp_gargoyle false InsertOk in
  let env' := env_with exp_gargoyle true InsertOk in
  let w := exec (set_enrollment env exp_gargoyle "A") registered_world in
  let w1 := exec (record_goal env "signup") w in
  let w2 := exec (record_goal env' "signup") w1 in
  contributors (GOAL_KEY "X" "A" "signup") w1 =
    contributors (GOAL_KEY "X" "A" "signup") w /\
  (GOAL_KEY "X" "A" "signup", participant_token env' w1)
    ∈ increment_calls (new_events (record_goal env' "signup") w1) /\
  participant_token env' w1 ∈ contributors (GOAL_KEY "X" "A" "signup") w2 /\
  increment_calls (new_events (set_enrollment env exp_gargoyle "B") w) =
    [(PARTICIPANT_KEY "X" "B", participant_token env w)].
Proof.
  intros env env' w w1 w2.
  destruct (gargoyle_gating env env' "signup" "B" w exp_gargoyle "sw" "A")
    as (Hoff & Hon & Hset).
  - reflexivity.
  - reflexivity.
  - discriminate.
  - reflexivity.
  - reflexivity.
  - split; [| split].
    + apply (Hoff (fun n a e' _ Hres Hne =>
                     match Hne (eq_sym (Some_inj _ _ Hres)) with end) "A").
    + apply Hon; [reflexivity | intros H; discriminate H
                 | split; reflexivity | reflexivity].
    + split.
      * apply Hon; [reflexivity | intros H; discriminate H
                   | split; reflexivity | reflexivity].
      * apply Hset; [reflexivity | intros H; discriminate H |].
        intros pk Hpk [H _]. injection Hpk as <-. discriminate H.
Defined.

(** ** Unverified anonymous visitors *)

Lemma get_enrollment_stored env e w :
  _is_bot (request w) = false ->
  get_enrollment env e w = (Return (stored_alternative w e), w).
Proof.
  intros Hbot.
  unfold get_enrollment, stored_alternative, session_enrollments,
    bind, get_world, ret.
  simpl. rewrite Hbot.
  destruct (user (request w)) as [| pk].
  - destruct (dict_truthy _) eqn:Hd.
    + by destruct (default ∅ _ !! name e) as [[a g] |].
    + by rewrite (dict_truthy_false_lookup _ _ Hd).
  - by destruct (Enrollment_objects w !! (pk, name e)).
Qed.

Lemma run_calls_unverified env calls w :
  _is_bot (request w) = false ->
  user (request w) = AnonymousUser ->
  _is_verified_human env (request w) = false ->
  outcome (run_calls env calls) w = Return tt /\
  counter_store (exec (run_calls env calls) w) = counter_store w /\
  increment_calls (trace (exec (run_calls env calls) w)) =
    increment_calls (trace w) /\
  _is_verified_human env (request (exec (run_calls env calls) w)) = false.
Proof.
  revert w. induction calls as [|c calls IH]; intros w Hbot Hu Hv; [done |].
  unfold run_calls, outcome, exec in *. rewrite for_each_cons.
  destruct c as [e | e alternative | goal_name]; cbn [run_call].
  - unfold bind. rewrite get_enrollment_stored by done.
    by apply IH.
  - rewrite set_enrollment_anonymous, Hv by done. cbv beta iota.
    destruct (IH (emit (experiment_user_added e AnonymousUser alternative)
                    (cached e alternative w)))
      as (Hout & Hstore & Hinc & Hver); try done.
    split; [exact Hout |]. split; [by rewrite Hstore |].
    split; [| exact Hver].
    rewrite Hinc, emit_trace, increment_calls_app. simpl.
    by rewrite app_nil_r.
  - rewrite record_goal_eq, Hbot, Hu, Hv. simpl. by apply IH.
Qed.

(** C6: for an anonymous, non-bot visitor that is not verified human,
    [set_enrollment] caches (alternative, []) in the session under the
    experiment's name, sends the enrollment signal and touches no counter;
    [record_goal] drops the goal and changes nothing at all; and no
    sequence of [get_enrollment], [set_enrollment] and [record_goal] calls
    reaches the counter store or verifies the visitor, so that only
    [confirm_human] can bring the participant counter in. *)
Theorem unverified_anonymous_cached_not_counted
    env w e alternative goal_name calls :
  _is_bot (request w) = false ->
  user (request w) = AnonymousUser ->
  _is_verified_human env (request w) = false ->
  (set_enrollment env e alternative w =
     (Return tt,
      emit (experiment_user_added e AnonymousUser alternative)
        (cached e alternative w)) /\
   session_enrollments (exec (set_enrollment env e alternative) w)
     !! name e = Some (alternative, []) /\
   counter_store (exec (set_enrollment env e alternative) w) =
     counter_store w /\
   increment_calls (new_events (set_enrollment env e alternative) w) = []) /\
  record_goal env goal_name w = (Return tt, w) /\
  (outcome (run_calls env calls) w = Return tt /\
   counter_store (exec (run_calls env calls) w) = counter_store w /\
   increment_calls (trace (exec (run_calls env calls) w)) =
     increment_calls (trace w) /\
   _is_verified_human env (request (exec (run_calls env calls) w)) = false).
Proof.
  intros Hbot Hu Hv.
  assert (set_enrollment env e alternative w =
     (Return tt,
      emit (experiment_user_added e AnonymousUser alternative)
        (cached e alternative w))) as Hset.
  { by rewrite set_enrollment_anonymous, Hv. }
  split; [| split].
  - split; [exact Hset |]. unfold exec. rewrite Hset. cbn [snd].
    split; [| split; [done |]].
    + unfold session_enrollments, cached. simpl. apply lookup_insert_eq.
    + by rewrite (new_events_app _ _
                    [experiment_user_added e AnonymousUser alternative]);
        [| unfold exec; rewrite Hset].
  - by rewrite record_goal_eq, Hbot, Hu, Hv.
  - by apply run_calls_unverified.
Qed.

Lemma unverified_anonymous_cached_not_counted_witness :
  let env := env_with exp_enabled true InsertOk in
  session_enrollments (exec (set_enrollment env exp_enabled "A") anonymous_world)
    !! "X" = Some ("A", []) /\
  counter_store (exec (set_enrollment env exp_enabled "A") anonymous_world) = ∅ /\
  record_goal env "signup" anonymous_world = (Return tt, anonymous_world) /\
  counter_store
    (exec (run_calls env
             [call_set_enrollment exp_enabled "A"; call_record_goal "signup";
              call_get_enrollment exp_enabled; call_record_goal "signup"])
       anonymous_world) = ∅.
Proof.
  intros env.
  destruct (unverified_anonymous_cached_not_counted env anonymous_world
              exp_enabled "A" "signup"
              [call_set_enrollment exp_enabled "A"; call_record_goal "signup";
               call_get_enrollment exp_enabled; call_record_goal "signup"])
    as ((_ & Hcache & Hstore & _) & Hgoal & (_ & Hcalls & _)).
  - reflexivity.
  - reflexivity.
  - reflexivity.
  - exact (conj Hcache (conj Hstore (conj Hgoal Hcalls))).
Defined.

(** ** Requests without a user agent *)

(** C8: a request whose user-agent header is absent is checked against the
    empty string and is not a bot. It takes part in full: [get_enrollment]
    returns the stored alternative, [set_enrollment] calls the counter
    store for the participant key (for a verified or registered visitor
    that does not lose the race), and a [record_goal] call that completes
    calls it for the goal key of an ENABLED experiment the visitor is
    enrolled in. *)
Theorem missing_user_agent_participates env w e alternative goal_name a :
  HTTP_USER_AGENT (request w) = None ->
  _is_bot (request w) = false /\
  get_enrollment env e w = (Return (stored_alternative w e), w) /\
  (verified_if_anonymous env w ->
   (forall pk, user (request w) = RegisteredUser pk -> ~ loses_race env w pk e) ->
   increment_calls (new_events (set_enrollment env e alternative) w) =
   [(PARTICIPANT_KEY (name e) alternative, participant_token env w)]) /\
  (verified_if_anonymous env w ->
   enrolled_in env w e a ->
   state e = ENABLED_STATE ->
   outcome (record_goal env goal_name) w = Return tt ->
   (GOAL_KEY (name e) a goal_name, participant_token env w)
     ∈ increment_calls (new_events (record_goal env goal_name) w)).
Proof.
  intros Hua.
  assert (_is_bot (request w) = false) as Hbot.
  { unfold _is_bot. by rewrite Hua. }
  split; [exact Hbot |]. split; [by apply get_enrollment_stored |]. split.
  - intros Hver Hrace. by apply set_enrollment_counts.
  - intros Hver Henr Hs Hout.
    destruct (record_goal_counts env goal_name w) as (cs & Hex & _ & Hdone).
    destruct (Hdone Hout Hbot Hver e a Henr) as (r & go & _ & Hg & Hin).
    rewrite gate_enabled in Hg by done. injection Hg as <-.
    rewrite (new_events_count_all _ env cs w Hex).
    apply list_elem_of_fmap. exists (CountedGoal e a goal_name).
    split; [done | by apply Hin].
Qed.

Lemma missing_user_agent_participates_witness :
  let env := env_with exp_enabled true InsertOk in
  _is_bot (request no_agent_world) = false /\
  get_enrollment env exp_enabled no_agent_world =
    (Return (Some "A"), no_agent_world) /\
  increment_calls
    (new_events (set_enrollment env exp_enabled "B") no_agent_world) =
    [("X:B:participant", "session:s1")] /\
  ("X:A:signup:goal", "session:s1")
    ∈ increment_calls (new_events (record_goal env "signup") no_agent_world).
Proof.
  intros env.
  destruct (missing_user_agent_participates env no_agent_world exp_enabled
              "B" "signup" "A" eq_refl) as (Hbot & Hget & Hset & Hgoal).
  split; [exact Hbot |]. split; [exact Hget |]. split.
  - apply Hset.
    + intros _. reflexivity.
    + intros pk H. discriminate H.
  - apply Hgoal.
    + intros _. reflexivity.
    + split; [by exists [] | reflexivity].
    + reflexivity.
    + reflexivity.
Defined.

(** * Further properties of the module *)

(** ** The bot filter *)

(** [_is_bot] holds exactly when the user agent, or the empty string when
    the header is absent, contains one of the crawler signatures up to
    ASCII case. *)
Theorem is_bot_iff_signature r :
  _is_bot r = true <->
  matches_crawler_signature (default "" (HTTP_USER_AGENT r)).
Proof. unfold _is_bot. apply BOT_REGEX_search_spec. Qed.

Lemma is_bot_iff_signature_witness :
  _is_bot (request bot_world) = true.
Proof.
  apply (is_bot_iff_signature (request bot_world)).
  exists "Googlebot", "mozilla/5.0 (compatible; ", "/2.1)".
  split; [simpl; tauto | reflexivity].
Defined.

(** Two requests whose user agents differ only in the case of ASCII
    letters are classified alike. *)
Theorem is_bot_ignores_case r r' :
  string_lower (default "" (HTTP_USER_AGENT r)) =
  string_lower (default "" (HTTP_USER_AGENT r')) ->
  _is_bot r = _is_bot r'.
Proof.
  intros Hlow. apply Bool.eq_iff_eq_true. unfold _is_bot.
  rewrite !BOT_REGEX_search_spec. unfold matches_crawler_signature.
  by rewrite Hlow.
Qed.

Lemma is_bot_ignores_case_witness :
  _is_bot {| user := AnonymousUser; HTTP_USER_AGENT := Some "GOOGLEBOT";
             session := fresh_session |} =
  _is_bot {| user := AnonymousUser; HTTP_USER_AGENT := Some "googlebot";
             session := fresh_session |}.
Proof. apply is_bot_ignores_case. reflexivity. Defined.

(** ** The participant identifier *)

(** For a registered user [_participant_identifier] changes nothing, and
    two registered users get the same identifier only when they have the
    same primary key. *)
Theorem participant_identifier_registered env w w' pk pk' :
  user (request w) = RegisteredUser pk ->
  user (request w') = RegisteredUser pk' ->
  exec (_participant_identifier env) w = w /\
  (outcome (_participant_identifier env) w =
   outcome (_participant_identifier env) w' -> pk = pk').
Proof.
  intros Hu Hu'. unfold exec, outcome. rewrite !participant_identifier_eq.
  split.
  - by apply ensure_session_key_registered with pk.
  - unfold participant_token. rewrite Hu, Hu'. simpl. intros H.
    injection H as H. change (pretty pk = pretty pk') in H.
    by apply pretty_Z_inj in H.
Qed.

Lemma participant_identifier_registered_witness :
  exec (_participant_identifier env_unknown) registered_world =
    registered_world /\
  (outcome (_participant_identifier env_unknown) registered_world =
   outcome (_participant_identifier env_unknown) enrolled_registered_world ->
   7%Z = 7%Z).
Proof.
  apply (participant_identifier_registered env_unknown registered_world
           enrolled_registered_world 7 7); reflexivity.
Defined.

(** The identifier of a registered user is never the identifier of an
    anonymous visitor. *)
Theorem participant_identifier_kinds_differ env env' w w' pk :
  user (request w) = RegisteredUser pk ->
  user (request w') = AnonymousUser ->
  outcome (_participant_identifier env) w <>
  outcome (_participant_identifier env') w'.
Proof.
  intros Hu Hu'. unfold outcome. rewrite !participant_identifier_eq.
  unfold participant_token. rewrite Hu, Hu'. simpl. intros H.
  discriminate H.
Qed.

Lemma participant_identifier_kinds_differ_witness :
  outcome (_participant_identifier env_unknown) registered_world <>
  outcome (_participant_identifier env_unknown) anonymous_world.
Proof.
  apply (participant_identifier_kinds_differ _ _ _ _ 7); reflexivity.
Defined.

Lemma ensure_session_key_twice env w :
  ensure_session_key env (ensure_session_key env w) = ensure_session_key env w.
Proof.
  unfold ensure_session_key.
  destruct (user (request w)) eqn:Hu; simpl; rewrite ?Hu; [| done].
  destruct (has_session_key (session (request w))) eqn:Hk; simpl;
    rewrite ?Hu, ?Hk; [done |].
  by destruct (has_session_key (session_save env (session (request w)))).
Qed.

(** For an anonymous visitor [_participant_identifier] leaves a session key
    in the session, returns "session:" followed by that key, and is stable:
    calling it again returns the same identifier and changes nothing
    more. *)
Theorem participant_identifier_anonymous_stable env w :
  user (request w) = AnonymousUser ->
  let w1 := exec (_participant_identifier env) w in
  (exists key,
     session_key (session (request w1)) = Some key /\
     outcome (_participant_identifier env) w = Return ("session:" +:+ key)) /\
  _participant_identifier env w1 =
    (outcome (_participant_identifier env) w, w1).
Proof.
  intros Hu w1. unfold w1, exec, outcome.
  rewrite !participant_identifier_eq. cbn [fst snd]. split.
  - unfold participant_token. rewrite Hu, ensure_session_key_value, Hu.
    unfold has_session_key.
    destruct (session_key (session (request w))) as [k |] eqn:Hk.
    + destruct (negb (String.eqb k "")); eexists; by rewrite ?Hk.
    + by eexists.
  - by rewrite participant_token_ensure, ensure_session_key_twice.
Qed.

Lemma participant_identifier_anonymous_stable_witness :
  let w1 := exec (_participant_identifier env_unknown) anonymous_world in
  (exists key,
     session_key (session (request w1)) = Some key /\
     outcome (_participant_identifier env_unknown) anonymous_world =
       Return ("session:" +:+ key)) /\
  _participant_identifier env_unknown w1 =
    (outcome (_participant_identifier env_unknown) anonymous_world, w1).
Proof.
  apply (participant_identifier_anonymous_stable env_unknown anonymous_world).
  reflexivity.
Defined.

(** ** Counter keys *)

Lemma string_app_cons c s t : String c s +:+ t = String c (s +:+ t).
Proof. done. Qed.

Lemma string_app_assoc s t u : (s +:+ t) +:+ u = s +:+ t +:+ u.
Proof.
  induction s as [|c s IH]; [done |]. by rewrite !string_app_cons, IH.
Qed.

Lemma string_length_app s t :
  String.length (s +:+ t) = String.length s + String.length t.
Proof.
  induction s as [|c s IH]; [done |]. rewrite string_app_cons. simpl.
  by rewrite IH.
Qed.

Lemma string_app_inj_r s s' t : s +:+ t = s' +:+ t -> s = s'.
Proof.
  revert s'. induction s as [|c s IH]; intros [|c' s'] H.
  - done.
  - change (t = String c' (s' +:+ t)) in H.
    apply (f_equal String.length) in H. simpl in H.
    rewrite string_length_app in H. lia.
  - change (String c (s +:+ t) = t) in H.
    apply (f_equal String.length) in H. simpl in H.
    rewrite string_length_app in H. lia.
  - rewrite !string_app_cons in H. injection H as -> H.
    f_equal. by apply IH.
Qed.

(** Two strings without a colon, each followed by a colon and a rest, are
    equal only piecewise. *)
Lemma colon_free_split n n' x y :
  colon_free n = true -> colon_free n' = true ->
  n +:+ ":" +:+ x = n' +:+ ":" +:+ y -> n = n' /\ x = y.
Proof.
  revert n'. induction n as [|c n IH]; intros [|c' n'] Hn Hn' H.
  - split; [done |]. by injection H.
  - rewrite string_app_cons in H. injection H as <- _.
    simpl in Hn'. discriminate Hn'.
  - rewrite string_app_cons in H. injection H as -> _.
    simpl in Hn. discriminate Hn.
  - rewrite !string_app_cons in H. injection H as -> H.
    simpl in Hn, Hn'. apply andb_true_iff in Hn as [_ Hn].
    apply andb_true_iff in Hn' as [_ Hn'].
    destruct (IH n' Hn Hn' H) as [-> ->]. done.
Qed.

(** With experiment names free of colons and every enrollment resolving to
    the experiment of its name, no enrollment in another experiment yields
    a goal key of [e]. *)
Lemma colon_free_names_share_no_goal_key env w e goal_name :
  colon_free (name e) = true ->
  resolve_enrollment env w (name e) = Some e ->
  (forall n a e',
     has_enrollment w n a -> resolve_enrollment env w n = Some e' ->
     name e' = n /\ colon_free n = true) ->
  shares_no_goal_key env w e goal_name.
Proof.
  intros He Hres Hnames n a e' Henr Hres' Hne a' g' Heq.
  destruct (Hnames n a e' Henr Hres') as [Hn Hfree].
  unfold GOAL_KEY in Heq.
  apply colon_free_split in Heq as [Heq _]; [| congruence | done].
  apply Hne. congruence.
Qed.

(** A participant key is never a goal key, whatever the experiment,
    alternative and goal names are: the two kinds of counters do not
    share keys. *)
Theorem participant_and_goal_keys_disjoint n a n' a' g :
  PARTICIPANT_KEY n a <> GOAL_KEY n' a' g.
Proof.
  intros H. apply (f_equal last_char) in H.
  rewrite PARTICIPANT_KEY_last, GOAL_KEY_last in H. discriminate H.
Qed.

(** When the experiment names contain no colon, a participant key
    determines the experiment name and the alternative; when the
    alternatives contain none either, a goal key determines the experiment
    name, the alternative and the goal. *)
Theorem counter_keys_injective n a g n' a' g' :
  colon_free n = true -> colon_free n' = true ->
  (PARTICIPANT_KEY n a = PARTICIPANT_KEY n' a' -> n = n' /\ a = a') /\
  (colon_free a = true -> colon_free a' = true ->
   GOAL_KEY n a g = GOAL_KEY n' a' g' -> n = n' /\ a = a' /\ g = g').
Proof.
  intros Hn Hn'. split.
  - unfold PARTICIPANT_KEY. intros H.
    apply colon_free_split in H as [-> H]; [| done | done].
    split; [done |]. by apply string_app_inj_r in H.
  - unfold GOAL_KEY. intros Ha Ha' H.
    apply colon_free_split in H as [-> H]; [| done | done].
    apply colon_free_split in H as [-> H]; [| done | done].
    repeat split; try done. by apply string_app_inj_r in H.
Qed.

Lemma counter_keys_injective_witness :
  (PARTICIPANT_KEY "X" "A" = PARTICIPANT_KEY "X" "A" -> "X" = "X" /\ "A" = "A") /\
  (colon_free "A" = true -> colon_free "A" = true ->
   GOAL_KEY "X" "A" "signup" = GOAL_KEY "X" "A" "signup" ->
   "X" = "X" /\ "A" = "A" /\ "signup" = "signup").
Proof.
  apply (counter_keys_injective "X" "A" "signup" "X" "A" "signup");
    reflexivity.
Defined.

(** With a colon in an experiment name the keys are ambiguous: counting a
    participant of an experiment named [n:a] in alternative [b] puts the
    visitor's token into the counter read for experiment [n] and
    alternative [a:b]. *)
Theorem participant_keys_alias env e e' a b w :
  name e = name e' +:+ ":" +:+ a ->
  participant_token env w
    ∈ contributors (PARTICIPANT_KEY (name e') (a +:+ ":" +:+ b))
        (exec (_increment_participant_count env e b) w).
Proof.
  intros Hname. unfold exec. rewrite increment_participant_count_eq.
  cbn [snd]. rewrite counted_contributors.
  assert (PARTICIPANT_KEY (name e) b =
          PARTICIPANT_KEY (name e') (a +:+ ":" +:+ b)) as Hkey.
  { unfold PARTICIPANT_KEY. rewrite Hname.
    by rewrite !string_app_assoc. }
  case_decide; [| done].
  apply elem_of_union_l. by apply elem_of_singleton.
Qed.

Lemma participant_keys_alias_witness :
  participant_token env_unknown registered_world
    ∈ contributors (PARTICIPANT_KEY "X" ("v1" +:+ ":" +:+ "A"))
        (exec (_increment_participant_count env_unknown
                 {| name := "X:v1"; state := ENABLED_STATE;
                    switch_key := None |} "A")
           registered_world).
Proof.
  apply (participant_keys_alias env_unknown
           {| name := "X:v1"; state := ENABLED_STATE; switch_key := None |}
           exp_enabled "v1" "A" registered_world).
  reflexivity.
Defined.

(** ** What [record_goal] counts, keeps and raises *)

Lemma gate_open env e r go :
  gate env e r = Return go -> truthy go = true ->
  state e = ENABLED_STATE \/
  (state e = GARGOYLE_STATE /\
   exists k, switch_key e = Some k /\ k <> "" /\
             gargoyle_is_active env k r = true).
Proof.
  unfold gate, outcome, _should_increment.
  destruct (state e) eqn:Hs; simpl.
  - intros H. injection H as <-. discriminate.
  - by left.
  - destruct (switch_key e) as [k |] eqn:Hk; simpl; [| done].
    destruct (String.eqb k "") eqn:Hne; simpl; [done |].
    unfold bind, get_world. simpl.
    destruct (gargoyle_is_active env k r) eqn:Hact; simpl.
    + intros _ _. right. split; [done |]. exists k.
      split; [done |]. split; [by apply String.eqb_neq | done].
    + intros H. injection H as <-. discriminate.
  - done.
Qed.

Lemma gate_recognised env e r :
  recognised e -> exists go, gate env e r = Return go.
Proof.
  unfold recognised, gate, outcome, _should_increment.
  intros [Hs | [Hs | [Hs Hk]]]; rewrite Hs; simpl; [by eexists .. |].
  rewrite Hk. unfold bind, get_world. simpl.
  destruct (gargoyle_is_active env _ r); by eexists.
Qed.

Lemma gate_raises env e r err :
  gate env e r = Raise err ->
  ~ recognised e /\ err = ValueError (state e).
Proof.
  unfold recognised, gate, outcome, _should_increment.
  destruct (state e) eqn:Hs; simpl; [done | done | |].
  - destruct (switch_key_truthy (switch_key e)) eqn:Hk; simpl.
    + unfold bind, get_world. simpl.
      by destruct (gargoyle_is_active env _ r).
    + intros H. injection H as <-. split; [| done].
      intros [? | [? | [_ ?]]]; congruence.
  - intros H. injection H as <-. split; [| done].
    intros [? | [? | [? _]]]; congruence.
Qed.

Lemma for_each_raises {A} (env : Env) (body : A -> M unit)
    (decide_item : A -> Request -> Outcome (option Counted)) :
  (forall x w,
     body x w =
     match decide_item x (request w) with
     | Raise err => (Raise err, w)
     | Return None => (Return tt, w)
     | Return (Some c) => (Return tt, count_one env c w)
     end) ->
  forall items w err,
    outcome (for_each items body) w = Raise err ->
    exists x r, x ∈ items /\ same_visitor r (request w) /\
                decide_item x r = Raise err.
Proof.
  intros body_eq items. induction items as [|x items IH]; intros w err.
  - intros H. discriminate H.
  - unfold outcome. rewrite for_each_cons, body_eq.
    destruct (decide_item x (request w)) as [[c |] | err'] eqn:Hd.
    + intros H. destruct (IH _ _ H) as (y & r & Hy & Hr & Hraise).
      exists y, r. split; [by right |]. split; [| done].
      eapply same_visitor_trans; [exact Hr | apply count_one_same_visitor].
    + intros H. destruct (IH _ _ H) as (y & r & Hy & Hr & Hraise).
      exists y, r. split; [by right | done].
    + intros H. injection H as <-. exists x, (request w).
      split; [left |]. split; [apply same_visitor_refl | done].
Qed.

(** Whatever the visitor, everything [record_goal] does is counting the
    goal for some experiments, with the visitor's token; each of them is
    ENABLED, or in GARGOYLE state with a non-empty switch key that the
    oracle reports active for the visitor. An experiment in CONTROL state
    is never counted. *)
Theorem record_goal_counts_open_experiments env goal_name w :
  exists cs,
    exec (record_goal env goal_name) w = count_all env cs w /\
    increment_calls (new_events (record_goal env goal_name) w) =
      map (fun c => (counted_key c, participant_token env w)) cs /\
    Forall (fun c => exists e a,
              c = CountedGoal e a goal_name /\
              (state e = ENABLED_STATE \/
               (state e = GARGOYLE_STATE /\
                exists k r, switch_key e = Some k /\ k <> "" /\
                            same_visitor r (request w) /\
                            gargoyle_is_active env k r = true))) cs.
Proof.
  destruct (record_goal_counts env goal_name w) as (cs & Hex & Hall & _).
  exists cs. split; [exact Hex |].
  split; [by apply new_events_count_all |].
  eapply Forall_impl; [exact Hall |].
  intros c (e & a & r & go & Hr & Hg & Ht & ->). exists e, a.
  split; [done |].
  destruct (gate_open _ _ _ _ Hg Ht) as [Hs | (Hs & k & Hk & Hne & Hact)];
    [by left |].
  right. split; [done |]. by exists k, r.
Qed.

(** [record_goal] never writes to the enrollment table, never changes who
    the visitor is, and leaves the verified flag and the enrollments
    cached in the session as they are. *)
Theorem record_goal_keeps_enrollments env goal_name w :
  Enrollment_objects (exec (record_goal env goal_name) w) =
    Enrollment_objects w /\
  same_visitor (request (exec (record_goal env goal_name) w)) (request w).
Proof.
  destruct (record_goal_counts env goal_name w) as (cs & -> & _).
  split; [apply count_all_table | apply count_all_same_visitor].
Qed.

Lemma goal_item_raises env goal_name resolved a r err :
  goal_item env goal_name resolved a r = Raise err ->
  resolved = Raise err \/
  exists e, resolved = Return e /\ ~ recognised e /\
            err = ValueError (state e).
Proof.
  unfold goal_item. destruct resolved as [e | err']; [| by left; congruence].
  destruct (gate env e r) as [go | err'] eqn:Hg.
  - by destruct (truthy go).
  - intros H. injection H as <-. right. exists e. split; [done |].
    by apply gate_raises in Hg.
Qed.

Lemma record_goal_raise_cases env goal_name w err :
  outcome (record_goal env goal_name) w = Raise err ->
  exists n a,
    has_enrollment w n a /\
    ((resolve_enrollment env w n = None /\ err = unresolved_error w n) \/
     exists e, resolve_enrollment env w n = Some e /\ ~ recognised e /\
               err = ValueError (state e)).
Proof.
  unfold outcome, has_enrollment, resolve_enrollment, unresolved_error.
  rewrite record_goal_eq.
  destruct (_is_bot (request w)); [done |].
  destruct (user (request w)) as [| pk].
  - destruct (_is_verified_human env (request w) && dict_truthy _); [| done].
    intros H.
    apply (for_each_raises env _ (goal_item_anonymous env goal_name)
             (goal_body_anonymous_eq env goal_name)) in H
      as ([n [a g]] & r & Hin & _ & Hraise).
    apply elem_of_map_to_list in Hin.
    exists n, a. split; [by exists g |].
    unfold goal_item_anonymous in Hraise. cbn [fst snd] in Hraise.
    apply goal_item_raises in Hraise as [Hres | (e & Hres & Hrec & ->)].
    + left. destruct (experiment_manager env n); [done |].
      injection Hres as <-. done.
    + right. exists e. destruct (experiment_manager env n); [| done].
      injection Hres as ->. done.
  - intros H.
    apply (for_each_raises env _ (goal_item_registered env goal_name)
             (goal_body_registered_eq env goal_name)) in H
      as ([n a] & r & Hin & _ & Hraise).
    apply elem_of_objects_filter_user in Hin.
    exists n, a. split; [done |].
    unfold goal_item_registered in Hraise. cbn [fst snd] in Hraise.
    apply goal_item_raises in Hraise as [Hres | (e & Hres & Hrec & ->)].
    + left. destruct (Experiment_objects env n); [done |].
      injection Hres as <-. done.
    + right. exists e. destruct (Experiment_objects env n); [| done].
      injection Hres as ->. done.
Qed.

(** [record_goal] completes when every enrollment of the visitor resolves
    to an experiment the gate recognises. It raises only because of one of
    the visitor's enrollments: one that does not resolve ([DoesNotExist]
    for a row, [KeyError] for a session entry), or one whose experiment has
    an unrecognised state or is in GARGOYLE state without a switch key
    ([ValueError]). *)
Theorem record_goal_errors env goal_name w :
  ((forall n a, has_enrollment w n a ->
      exists e, resolve_enrollment env w n = Some e /\ recognised e) ->
   outcome (record_goal env goal_name) w = Return tt) /\
  (forall err,
     outcome (record_goal env goal_name) w = Raise err ->
     exists n a,
       has_enrollment w n a /\
       ((resolve_enrollment env w n = None /\ err = unresolved_error w n) \/
        exists e, resolve_enrollment env w n = Some e /\ ~ recognised e /\
                  err = ValueError (state e))).
Proof.
  split; [| intros err; apply record_goal_raise_cases].
  intros Hok.
  destruct (outcome (record_goal env goal_name) w) as [[] | err] eqn:Hout;
    [done |].
  apply record_goal_raise_cases in Hout as (n & a & Henr & Hcase).
  destruct (Hok n a Henr) as (e & Hres & Hrec).
  destruct Hcase as [[Hnone _] | (e' & Hres' & Hnrec & _)]; congruence.
Qed.

Lemma record_goal_errors_witness :
  outcome (record_goal (env_with exp_enabled true InsertOk) "signup")
    enrolled_registered_world = Return tt /\
  exists n a,
    has_enrollment enrolled_registered_world n a /\
    ((resolve_enrollment env_unknown enrolled_registered_world n = None /\
      DoesNotExist = unresolved_error enrolled_registered_world n) \/
     exists e, resolve_enrollment env_unknown enrolled_registered_world n
               = Some e /\ ~ recognised e /\
               DoesNotExist = ValueError (state e)).
Proof.
  split.
  - apply (record_goal_errors (env_with exp_enabled true InsertOk) "signup"
             enrolled_registered_world).
    intros n a _. exists exp_enabled. split; [reflexivity |].
    right. left. reflexivity.
  - apply (record_goal_errors env_unknown "signup"
             enrolled_registered_world).
    reflexivity.
Defined.

(** For a visitor without any enrollment [record_goal] does nothing. *)
Theorem record_goal_without_enrollment env goal_name w :
  (forall n a, ~ has_enrollment w n a) ->
  record_goal env goal_name w = (Return tt, w).
Proof.
  unfold has_enrollment. intros Hnone. rewrite record_goal_eq.
  destruct (_is_bot (request w)); [done |].
  destruct (user (request w)) as [| pk].
  - destruct (_is_verified_human env (request w) && dict_truthy _); [| done].
    destruct (map_to_list (session_enrollments w)) as [| [n [a g]] items]
      eqn:Hitems; [done |].
    exfalso. apply (Hnone n a). exists g.
    apply elem_of_map_to_list. rewrite Hitems. left.
  - destruct (objects_filter_user pk (Enrollment_objects w)) as [| [n a] items]
      eqn:Hitems; [done |].
    exfalso. apply (Hnone n a).
    apply elem_of_objects_filter_user. rewrite Hitems. left.
Qed.

Lemma record_goal_without_enrollment_witness :
  record_goal (env_with exp_enabled true InsertOk) "signup" registered_world =
  (Return tt, registered_world).
Proof.
  apply record_goal_without_enrollment.
  intros n a H. unfold has_enrollment in H. simpl in H.
  by rewrite lookup_empty in H.
Defined.

(** ** What [confirm_human] leaves behind *)

Lemma confirm_human_verifies_helper env w :
  _is_verified_human env (request (exec (confirm_human env) w)) = true.
Proof.
  destruct (confirm_human_counts env w) as (cs & Hex & _).
  unfold _is_verified_human. rewrite Hex.
  destruct (count_all_same_visitor env cs (confirmed w)) as (_ & _ & -> & _).
  by destruct (default true (EXPERIMENTS_VERIFY_HUMAN env)).
Qed.

(** After [confirm_human] the verified flag of the session is [True] and
    the visitor counts as verified human, also when the promotion loop
    raised on the way; the enrollment table and the cached enrollments are
    as before. *)
Theorem confirm_human_verifies env w :
  let w' := exec (confirm_human env) w in
  experiments_verified_human (session (request w')) = Some true /\
  _is_verified_human env (request w') = true /\
  Enrollment_objects w' = Enrollment_objects w /\
  session_enrollments w' = session_enrollments w.
Proof.
  intros w'. destruct (confirm_human_counts env w) as (cs & Hex & _).
  fold w' in Hex.
  assert (experiments_verified_human (session (request w')) = Some true)
    as Hflag.
  { rewrite Hex.
    by destruct (count_all_same_visitor env cs (confirmed w))
      as (_ & _ & -> & _). }
  split; [exact Hflag |]. split; [| split].
  - unfold _is_verified_human. rewrite Hflag.
    by destruct (default true (EXPERIMENTS_VERIFY_HUMAN env)).
  - by rewrite Hex, count_all_table.
  - by rewrite Hex, count_all_enrollments.
Qed.

(** With nothing cached in the session, [confirm_human] only sets the flag
    and sends the confirmation signal: no counter is called. *)
Theorem confirm_human_without_enrollment env w :
  session_enrollments w = ∅ ->
  confirm_human env w = (Return tt, confirmed w).
Proof.
  unfold session_enrollments. intros Hempty. rewrite confirm_human_eq.
  destruct (experiments_enrollments (session (request w))) as [d |] eqn:Hd;
    simpl in *; [| done].
  subst d. unfold session_enrollments. rewrite Hd. simpl.
  by rewrite bool_decide_eq_true_2.
Qed.

Lemma confirm_human_without_enrollment_witness :
  confirm_human env_unknown anonymous_world =
  (Return tt, confirmed anonymous_world).
Proof. apply confirm_human_without_enrollment. reflexivity. Defined.

(** [confirm_human] raises only [KeyError], for the name of a cached
    enrollment that [experiment_manager] does not know. *)
Theorem confirm_human_raises env w err :
  outcome (confirm_human env) w = Raise err ->
  exists n v, session_enrollments w !! n = Some v /\
              experiment_manager env n = None /\ err = KeyError n.
Proof.
  unfold outcome. rewrite confirm_human_eq.
  destruct (dict_truthy _); [| done].
  intros H.
  apply (for_each_raises env _ (promote_item env) (promote_body_eq env)) in H
    as ([n v] & r & Hin & _ & Hraise).
  apply elem_of_map_to_list in Hin. exists n, v. split; [exact Hin |].
  unfold promote_item in Hraise. cbn [fst snd] in Hraise.
  destruct (experiment_manager env n); [done |].
  injection Hraise as <-. done.
Qed.

Lemma confirm_human_raises_witness :
  exists n v, session_enrollments verified_world !! n = Some v /\
              experiment_manager env_unknown n = None /\
              KeyError "X" = KeyError n.
Proof.
  apply (confirm_human_raises env_unknown verified_world (KeyError "X")).
  reflexivity.
Defined.

(** ** Enrolling *)

Lemma set_session_id w : set_session (session (request w)) w = w.
Proof. by destruct w as [[u agent s] t c tr]. Qed.

Lemma set_enrollments_id d s :
  experiments_enrollments s = Some d -> set_enrollments d s = s.
Proof. destruct s. simpl. by intros ->. Qed.

Lemma emit_is_bot ev w : _is_bot (request (emit ev w)) = _is_bot (request w).
Proof. done. Qed.

Lemma count_one_is_bot env c w :
  _is_bot (request (count_one env c w)) = _is_bot (request w).
Proof. apply same_visitor_is_bot, count_one_same_visitor. Qed.

Lemma enrolled_world_token env e a w :
  participant_token env (enrolled_world e a w) = participant_token env w.
Proof.
  unfold enrolled_world. destruct (user (request w)) eqn:Hu.
  - apply cached_token.
  - apply set_table_token.
Qed.

Lemma enrolled_world_contributors key e a w :
  contributors key (enrolled_world e a w) = contributors key w.
Proof. unfold enrolled_world. by destruct (user (request w)). Qed.

Lemma enrolled_world_user e a w :
  user (request (enrolled_world e a w)) = user (request w).
Proof.
  unfold enrolled_world. destruct (user (request w)) eqn:Hu; exact Hu.
Qed.

Lemma enrolled_world_is_bot e a w :
  _is_bot (request (enrolled_world e a w)) = _is_bot (request w).
Proof. unfold enrolled_world. by destruct (user (request w)). Qed.

Lemma enrolled_world_is_verified env e a w :
  _is_verified_human env (request (enrolled_world e a w)) =
  _is_verified_human env (request w).
Proof. unfold enrolled_world. by destruct (user (request w)). Qed.

Lemma enrolled_world_stored e e' a w :
  stored_alternative (enrolled_world e a w) e' =
  if decide (name e = name e') then Some a else stored_alternative w e'.
Proof.
  unfold stored_alternative, enrolled_world.
  destruct (user (request w)) as [| pk] eqn:Hu.
  - change (user (request (cached e a w))) with (user (request w)).
    rewrite Hu.
    change (session_enrollments (cached e a w))
      with (<[name e := (a, [])]> (session_enrollments w)).
    rewrite lookup_insert. by case_decide.
  - rewrite set_table_request, Hu, set_table_table, lookup_insert.
    case_decide as Hk.
    + injection Hk as Hk. by rewrite decide_True.
    + rewrite decide_False; [done |]. intros Hn. apply Hk. by rewrite Hn.
Qed.

(** The three ways [set_enrollment] can end. *)
Lemma set_enrollment_cases env e a w :
  set_enrollment env e a w = (Return tt, w) \/
  set_enrollment env e a w =
    (Return tt,
     emit (experiment_user_added e (user (request w)) a)
       (enrolled_world e a w)) \/
  set_enrollment env e a w =
    (Return tt,
     emit (experiment_user_added e (user (request w)) a)
       (count_one env (CountedParticipant e a) (enrolled_world e a w))).
Proof.
  destruct (_is_bot (request w)) eqn:Hbot.
  { left. unfold set_enrollment, bind, get_world, ret. simpl.
    by rewrite Hbot. }
  unfold enrolled_world, count_one.
  destruct (user (request w)) as [| pk] eqn:Hu.
  - right. rewrite set_enrollment_anonymous by done.
    destruct (_is_verified_human env (request w)); [right | left]; [| done].
    unfold count_one.
    change (user (request (cached e a w))) with (user (request w)).
    by rewrite Hu.
  - destruct (Enrollment_objects w !! (pk, name e)) as [existing |] eqn:Hrow.
    + right. right.
      rewrite (set_enrollment_registered _ _ _ _ pk); try done.
      * unfold counted_signal, counted_key. by rewrite set_table_request, Hu.
      * intros [Hnone _]. congruence.
    + destruct (insert_outcome env) eqn:Hins.
      * right. right.
        rewrite (set_enrollment_registered _ _ _ _ pk); try done.
        -- unfold counted_signal, counted_key.
           by rewrite set_table_request, Hu.
        -- intros [_ Hdup]. congruence.
      * left. by apply (set_enrollment_registered_race _ _ _ _ pk).
Qed.

(** The end of [set_enrollment] for a participating visitor. *)
Lemma set_enrollment_participating env e a w :
  _is_bot (request w) = false ->
  verified_if_anonymous env w ->
  (forall pk, user (request w) = RegisteredUser pk -> ~ loses_race env w pk e) ->
  set_enrollment env e a w =
  (Return tt,
   emit (experiment_user_added e (user (request w)) a)
     (count_one env (CountedParticipant e a) (enrolled_world e a w))).
Proof.
  intros Hbot Hver Hrace. unfold enrolled_world, count_one.
  destruct (user (request w)) as [| pk] eqn:Hu.
  - rewrite set_enrollment_anonymous, (Hver Hu) by done.
    unfold count_one.
    change (user (request (cached e a w))) with (user (request w)).
    by rewrite Hu.
  - rewrite (set_enrollment_registered _ _ _ _ pk) by auto.
    unfold counted_signal, counted_key. by rewrite set_table_request, Hu.
Qed.

(** The end of [set_enrollment] whenever it records the alternative. *)
Lemma set_enrollment_records env e a w :
  _is_bot (request w) = false ->
  (forall pk, user (request w) = RegisteredUser pk -> ~ loses_race env w pk e) ->
  exists w1,
    exec (set_enrollment env e a) w =
      emit (experiment_user_added e (user (request w)) a) w1 /\
    (w1 = enrolled_world e a w \/
     w1 = count_one env (CountedParticipant e a) (enrolled_world e a w)).
Proof.
  intros Hbot Hrace. unfold exec.
  destruct (_is_verified_human env (request w)) eqn:Hv.
  - rewrite set_enrollment_participating; [| done | by intros _ | done].
    eexists. split; [reflexivity | by right].
  - destruct (user (request w)) as [| pk] eqn:Hu.
    + rewrite set_enrollment_anonymous, Hv by done.
      exists (cached e a w). split; [done |]. left.
      unfold enrolled_world. by rewrite Hu.
    + rewrite set_enrollment_participating;
        [| done | intros Hanon; congruence
         | intros pk0 Hpk0; apply Hrace; congruence].
      eexists. split; [by rewrite Hu | by right].
Qed.

(** [get_enrollment] after [set_enrollment] returns the alternative just
    set, for a registered user that does not lose the race and for an
    anonymous visitor, verified or not; what is stored for experiments of
    another name is untouched. *)
Theorem set_then_get_enrollment env env' e e' a w :
  _is_bot (request w) = false ->
  (forall pk, user (request w) = RegisteredUser pk -> ~ loses_race env w pk e) ->
  let w' := exec (set_enrollment env e a) w in
  outcome (get_enrollment env' e) w' = Return (Some a) /\
  (name e' <> name e ->
   outcome (get_enrollment env' e') w' = outcome (get_enrollment env' e') w).
Proof.
  intros Hbot Hrace w'.
  destruct (set_enrollment_records env e a w Hbot Hrace) as (w1 & Hex & Hw1).
  fold w' in Hex.
  assert (_is_bot (request w') = false) as Hbot'.
  { rewrite Hex, emit_is_bot.
    destruct Hw1 as [-> | ->];
      by rewrite ?count_one_is_bot, enrolled_world_is_bot. }
  assert (forall x, stored_alternative w' x =
                    stored_alternative (enrolled_world e a w) x) as Hst.
  { intros x. rewrite Hex. destruct Hw1 as [-> | ->]; [done |].
    unfold stored_alternative, session_enrollments.
    rewrite emit_request, emit_table, count_one_table.
    by destruct (count_one_same_visitor env (CountedParticipant e a)
                   (enrolled_world e a w)) as (-> & _ & _ & ->). }
  unfold outcome. rewrite !get_enrollment_stored by done. cbn [fst].
  rewrite !Hst, !enrolled_world_stored. split.
  - by rewrite decide_True.
  - intros Hne. rewrite decide_False; [done | congruence].
Qed.

Lemma set_then_get_enrollment_witness :
  let env := env_with exp_enabled true InsertOk in
  let w' := exec (set_enrollment env exp_enabled "A") anonymous_world in
  outcome (get_enrollment env exp_enabled) w' = Return (Some "A") /\
  (name {| name := "Y"; state := ENABLED_STATE; switch_key := None |}
     <> name exp_enabled ->
   outcome (get_enrollment env
              {| name := "Y"; state := ENABLED_STATE; switch_key := None |}) w'
   = outcome (get_enrollment env
              {| name := "Y"; state := ENABLED_STATE; switch_key := None |})
       anonymous_world).
Proof.
  intros env.
  apply (set_then_get_enrollment env env exp_enabled _ "A" anonymous_world).
  - reflexivity.
  - intros pk H. discriminate H.
Defined.

(** Whatever the visitor and the experiment, [set_enrollment] calls the
    counter store at most once, and then with the key built from the name
    of the experiment and the alternative it was given, and the visitor's
    token. It changes no goal counter, and when the experiment names
    contain no colon it changes no participant counter of an experiment of
    another name. *)
Theorem set_enrollment_counter_calls env e a w :
  (increment_calls (new_events (set_enrollment env e a) w) = [] \/
   increment_calls (new_events (set_enrollment env e a) w) =
   [(PARTICIPANT_KEY (name e) a, participant_token env w)]) /\
  (forall n a' g,
     contributors (GOAL_KEY n a' g) (exec (set_enrollment env e a) w) =
     contributors (GOAL_KEY n a' g) w) /\
  (forall n a',
     colon_free (name e) = true -> colon_free n = true -> n <> name e ->
     contributors (PARTICIPANT_KEY n a') (exec (set_enrollment env e a) w) =
     contributors (PARTICIPANT_KEY n a') w).
Proof.
  assert (forall key,
            PARTICIPANT_KEY (name e) a <> key ->
            contributors key (exec (set_enrollment env e a) w) =
            contributors key w) as Hother.
  { intros key Hkey. unfold exec.
    destruct (set_enrollment_cases env e a w) as [-> | [-> | ->]]; cbn [snd].
    - done.
    - by rewrite emit_contributors, enrolled_world_contributors.
    - rewrite emit_contributors, count_one_contributors.
      rewrite decide_False by done. apply enrolled_world_contributors. }
  split; [| split].
  - destruct (set_enrollment_cases env e a w) as [H | [H | H]].
    + left. rewrite (new_events_app _ _ []); [done |].
      unfold exec. rewrite H. by rewrite app_nil_r.
    + left.
      rewrite (new_events_app _ _
                 [experiment_user_added e (user (request w)) a]); [done |].
      unfold exec. rewrite H. cbn [snd]. rewrite emit_trace.
      unfold enrolled_world. by destruct (user (request w)).
    + right.
      assert (trace (exec (set_enrollment env e a) w) =
        trace w ++
        [counters_increment (PARTICIPANT_KEY (name e) a)
           (participant_token env w);
         experiment_incr_participant e a (user (request w))
           (size ({[participant_token env w]}
                  ∪ contributors (PARTICIPANT_KEY (name e) a) w));
         experiment_user_added e (user (request w)) a]) as Htrace.
      { unfold exec. rewrite H. cbn [snd]. unfold count_one.
        rewrite emit_trace, counted_trace, enrolled_world_token,
          enrolled_world_contributors, enrolled_world_user, <- app_assoc.
        f_equal. unfold enrolled_world. by destruct (user (request w)). }
      by rewrite (new_events_app _ _ _ Htrace).
  - intros n a' g. apply Hother, PARTICIPANT_KEY_not_GOAL_KEY.
  - intros n a' He Hn Hne. apply Hother. unfold PARTICIPANT_KEY. intros Heq.
    apply colon_free_split in Heq as [Heq _]; [| done | done].
    by apply Hne.
Qed.

Lemma set_enrollment_counter_calls_witness :
  let env := env_with exp_enabled true InsertOk in
  increment_calls
    (new_events (set_enrollment env exp_enabled "A") registered_world) =
    [(PARTICIPANT_KEY "X" "A", participant_token env registered_world)] /\
  contributors (PARTICIPANT_KEY "Y" "A")
    (exec (set_enrollment env exp_enabled "A") registered_world) =
  contributors (PARTICIPANT_KEY "Y" "A") registered_world.
Proof.
  intros env.
  destruct (set_enrollment_counter_calls env exp_enabled "A" registered_world)
    as (Hcalls & _ & Hother).
  split.
  - destruct Hcalls as [Hnone | Hone]; [discriminate Hnone | exact Hone].
  - apply Hother; [reflexivity | reflexivity | discriminate].
Defined.

Lemma enrolled_world_twice env e a w ev :
  enrolled_world e a
    (emit ev (count_one env (CountedParticipant e a) (enrolled_world e a w)))
  = emit ev (count_one env (CountedParticipant e a) (enrolled_world e a w)).
Proof.
  set (w1 := emit ev (count_one env (CountedParticipant e a)
                        (enrolled_world e a w))).
  assert (user (request w1) = user (request w)) as Hu1.
  { unfold w1. rewrite emit_request.
    destruct (count_one_same_visitor env (CountedParticipant e a)
                (enrolled_world e a w)) as (-> & _).
    apply enrolled_world_user. }
  unfold enrolled_world at 1. rewrite Hu1.
  destruct (user (request w)) as [| pk] eqn:Hu.
  - assert (experiments_enrollments (session (request w1)) =
            Some (<[name e := (a, [])]> (session_enrollments w))) as Henr.
    { unfold w1. rewrite emit_request.
      destruct (count_one_same_visitor env (CountedParticipant e a)
                  (enrolled_world e a w)) as (_ & _ & _ & ->).
      unfold enrolled_world. by rewrite Hu. }
    assert (session_enrollments w1 =
            <[name e := (a, [])]> (session_enrollments w)) as Hse.
    { unfold session_enrollments at 1. by rewrite Henr. }
    unfold cached. rewrite Hse, insert_insert_eq.
    rewrite (set_enrollments_id _ _ Henr). apply set_session_id.
  - assert (Enrollment_objects w1 =
            <[(pk, name e) := a]> (Enrollment_objects w)) as Htab.
    { unfold w1. rewrite emit_table, count_one_table.
      unfold enrolled_world. by rewrite Hu. }
    rewrite Htab, insert_insert_eq, <- Htab. apply set_table_id.
Qed.

(** Enrolling a participating visitor a second time with the same
    alternative calls the counter store again (the engine does not
    deduplicate), and the store, the enrollment table and the request with
    its session come out of the second call as they went in. *)
Theorem set_enrollment_twice env e a w :
  _is_bot (request w) = false ->
  verified_if_anonymous env w ->
  (forall pk, user (request w) = RegisteredUser pk -> ~ loses_race env w pk e) ->
  let w1 := exec (set_enrollment env e a) w in
  let w2 := exec (set_enrollment env e a) w1 in
  increment_calls (new_events (set_enrollment env e a) w1) =
    [(PARTICIPANT_KEY (name e) a, participant_token env w)] /\
  counter_store w2 = counter_store w1 /\
  Enrollment_objects w2 = Enrollment_objects w1 /\
  request w2 = request w1.
Proof.
  intros Hbot Hver Hrace w1 w2.
  set (c := CountedParticipant e a).
  set (ev := experiment_user_added e (user (request w)) a).
  assert (w1 = emit ev (count_one env c (enrolled_world e a w))) as Hw1.
  { unfold w1, exec. by rewrite set_enrollment_participating. }
  pose proof (count_one_same_visitor env c (enrolled_world e a w)) as Hsame.
  assert (user (request w1) = user (request w)) as Huser.
  { rewrite Hw1, emit_request. destruct Hsame as (-> & _).
    apply enrolled_world_user. }
  assert (_is_bot (request w1) = false) as Hbot1.
  { rewrite Hw1, emit_request, (same_visitor_is_bot _ _ Hsame).
    by rewrite enrolled_world_is_bot. }
  assert (verified_if_anonymous env w1) as Hver1.
  { intros Hu1. rewrite Hw1, emit_request.
    rewrite (same_visitor_is_verified _ _ _ Hsame).
    rewrite enrolled_world_is_verified. apply Hver. by rewrite <- Huser. }
  assert (participant_token env w1 = participant_token env w) as Htok.
  { by rewrite Hw1, emit_token, count_one_token, enrolled_world_token. }
  assert (forall pk, user (request w1) = RegisteredUser pk ->
                     ~ loses_race env w1 pk e) as Hrace1.
  { intros pk Hu1 [Hnone _].
    assert (user (request w) = RegisteredUser pk) as Hu
      by by rewrite <- Huser.
    rewrite Hw1, emit_table, count_one_table in Hnone.
    unfold enrolled_world in Hnone. rewrite Hu in Hnone.
    by rewrite set_table_table, lookup_insert_eq in Hnone. }
  assert (w2 = emit (experiment_user_added e (user (request w1)) a)
                 (count_one env c w1)) as Hw2.
  { unfold w2, exec. rewrite set_enrollment_participating by done.
    cbn [snd]. f_equal. f_equal. rewrite Hw1. apply enrolled_world_twice. }
  assert (participant_token env w1 ∈ contributors (counted_key c) w1) as Hin.
  { rewrite Htok, Hw1, emit_contributors, count_one_contributors.
    rewrite enrolled_world_token, decide_True by done.
    apply elem_of_union_l. by apply elem_of_singleton. }
  split; [| split; [| split]].
  - destruct (set_enrollment_counts env e a w1 Hbot1 Hver1 Hrace1) as [_ ->].
    by rewrite Htok.
  - rewrite Hw2, emit_counters. by apply count_one_counter_store_dedup.
  - by rewrite Hw2, emit_table, count_one_table.
  - rewrite Hw2, emit_request. unfold count_one. rewrite counted_request.
    rewrite (ensure_session_key_request env w1
               (ensure_session_key env (enrolled_world e a w))).
    + rewrite ensure_session_key_twice. by rewrite Hw1.
    + by rewrite Hw1.
Qed.

Lemma set_enrollment_twice_witness :
  let env := env_with exp_enabled true InsertOk in
  let w1 := exec (set_enrollment env exp_enabled "A") verified_world in
  let w2 := exec (set_enrollment env exp_enabled "A") w1 in
  increment_calls (new_events (set_enrollment env exp_enabled "A") w1) =
    [(PARTICIPANT_KEY (name exp_enabled) "A",
      participant_token env verified_world)] /\
  counter_store w2 = counter_store w1 /\
  Enrollment_objects w2 = Enrollment_objects w1 /\
  request w2 = request w1.
Proof.
  intros env.
  apply (set_enrollment_twice env exp_enabled "A" verified_world).
  - reflexivity.
  - intros _. reflexivity.
  - intros pk H. discriminate H.
Defined.

(** With human verification switched off in the settings, an anonymous
    visitor counts at once: [set_enrollment] adds the visitor's token to
    the participant counter of the experiment and alternative, and a
    [record_goal] call that completes adds it to the goal counter of an
    ENABLED experiment; on counters that were empty both counts are 1. *)
Theorem enroll_then_goal_without_verification env e a g w :
  EXPERIMENTS_VERIFY_HUMAN env = Some false ->
  _is_bot (request w) = false ->
  user (request w) = AnonymousUser ->
  state e = ENABLED_STATE ->
  experiment_manager env (name e) = Some e ->
  let w1 := exec (set_enrollment env e a) w in
  let w2 := exec (record_goal env g) w1 in
  outcome (record_goal env g) w1 = Return tt ->
  contributors (PARTICIPANT_KEY (name e) a) w1 =
    {[participant_token env w]} ∪ contributors (PARTICIPANT_KEY (name e) a) w /\
  contributors (GOAL_KEY (name e) a g) w2 =
    {[participant_token env w]} ∪ contributors (GOAL_KEY (name e) a g) w /\
  (contributors (PARTICIPANT_KEY (name e) a) w = ∅ ->
   counter_value (PARTICIPANT_KEY (name e) a) w1 = 1) /\
  (contributors (GOAL_KEY (name e) a g) w = ∅ ->
   counter_value (GOAL_KEY (name e) a g) w2 = 1).
Proof.
  intros Hcfg Hbot Hu Hs Hman w1 w2 Hout.
  assert (forall r, _is_verified_human env r = true) as Hverified.
  { intros r. unfold _is_verified_human. by rewrite Hcfg. }
  set (c := CountedParticipant e a).
  assert (w1 = emit (experiment_user_added e (user (request w)) a)
                 (count_one env c (enrolled_world e a w))) as Hw1.
  { unfold w1, exec.
    by rewrite set_enrollment_participating;
      [| done | intros _; apply Hverified | intros pk Hpk; congruence]. }
  assert (forall key, contributors key w1 =
            if decide (PARTICIPANT_KEY (name e) a = key)
            then {[participant_token env w]} ∪ contributors key w
            else contributors key w) as Hc1.
  { intros key. rewrite Hw1, emit_contributors, count_one_contributors.
    by rewrite enrolled_world_token, enrolled_world_contributors. }
  assert (participant_token env w1 = participant_token env w) as Htok.
  { by rewrite Hw1, emit_token, count_one_token, enrolled_world_token. }
  pose proof (count_one_same_visitor env c (enrolled_world e a w)) as Hsame.
  assert (user (request w1) = AnonymousUser) as Hu1.
  { rewrite Hw1, emit_request. destruct Hsame as (-> & _).
    by rewrite enrolled_world_user. }
  assert (enrolled_in env w1 e a) as Henr.
  { unfold enrolled_in. rewrite Hu1. split; [| done]. exists [].
    unfold session_enrollments. rewrite Hw1, emit_request.
    destruct Hsame as (_ & _ & _ & ->).
    unfold enrolled_world. rewrite Hu. simpl. apply lookup_insert_eq. }
  destruct (record_goal_counts env g w1) as (cs & Hex & _ & Hdone).
  fold w2 in Hex.
  assert (_is_bot (request w1) = false) as Hbot1.
  { rewrite Hw1, emit_request, (same_visitor_is_bot _ _ Hsame).
    by rewrite enrolled_world_is_bot. }
  assert (verified_if_anonymous env w1) as Hver1
    by (intros _; apply Hverified).
  destruct (Hdone Hout Hbot1 Hver1 e a Henr) as (r & go & _ & Hg & Hin).
  rewrite gate_enabled in Hg by done. injection Hg as <-.
  specialize (Hin eq_refl).
  assert (contributors (GOAL_KEY (name e) a g) w2 =
          {[participant_token env w]} ∪ contributors (GOAL_KEY (name e) a g) w)
    as Hc2.
  { assert (GOAL_KEY (name e) a g ∈ map counted_key cs) as Hmem.
    { apply list_elem_of_fmap. by exists (CountedGoal e a g). }
    rewrite Hex, count_all_contributors, decide_True by exact Hmem.
    rewrite Htok, Hc1.
    by rewrite decide_False by apply PARTICIPANT_KEY_not_GOAL_KEY. }
  split; [| split; [exact Hc2 | split]].
  - rewrite Hc1. by rewrite decide_True.
  - intros Hempty. unfold counter_value. rewrite Hc1, decide_True by done.
    by rewrite Hempty, union_empty_r_L, size_singleton.
  - intros Hempty. unfold counter_value.
    by rewrite Hc2, Hempty, union_empty_r_L, size_singleton.
Qed.

Lemma enroll_then_goal_without_verification_witness :
  let env := env_no_verification exp_enabled in
  let w1 := exec (set_enrollment env exp_enabled "variant1") anonymous_world in
  let w2 := exec (record_goal env "signup") w1 in
  counter_value (PARTICIPANT_KEY "X" "variant1") w1 = 1 /\
  counter_value (GOAL_KEY "X" "variant1" "signup") w2 = 1.
Proof.
  intros env w1 w2.
  destruct (enroll_then_goal_without_verification env exp_enabled
              "variant1" "signup" anonymous_world)
    as (_ & _ & Hp & Hg); try reflexivity.
  split; [apply Hp | apply Hg]; reflexivity.
Defined.

(** The count a signal carries is the count of its counter after the
    increment: [experiment_incr_participant] reports the participants of
    the key [_increment_participant_count] just raised, [goal_hit] the
    hits of the key [_increment_goal_count] just raised. *)
Theorem increment_signals_report_count env e a g w :
  (let key := PARTICIPANT_KEY (name e) a in
   let w' := exec (_increment_participant_count env e a) w in
   trace w' =
   trace w ++
   [counters_increment key (participant_token env w);
    experiment_incr_participant e a (user (request w))
      (counter_value key w')]) /\
  (let key := GOAL_KEY (name e) a g in
   let w' := exec (_increment_goal_count env e a g) w in
   trace w' =
   trace w ++
   [counters_increment key (participant_token env w);
    goal_hit e a g (user (request w)) (counter_value key w')]).
Proof.
  split; intros key w'; unfold w', exec, counter_value.
  - rewrite increment_participant_count_eq. cbn [snd].
    rewrite counted_trace, counted_contributors. by rewrite decide_True.
  - rewrite increment_goal_count_eq. cbn [snd].
    rewrite counted_trace, counted_contributors. by rewrite decide_True.
Qed.

(** ** Counters over a whole session of calls *)

Lemma counters_grow_refl env w : counters_grow_by_token env w w.
Proof.
  split; [done |]. intros key. split; [done |]. apply union_subseteq_r.
Qed.

Lemma counters_grow_trans env w1 w2 w3 :
  counters_grow_by_token env w1 w2 ->
  counters_grow_by_token env w2 w3 ->
  counters_grow_by_token env w1 w3.
Proof.
  intros [Ht12 H12] [Ht23 H23]. split; [congruence |].
  intros key. destruct (H12 key) as [Hlo12 Hhi12].
  destruct (H23 key) as [Hlo23 Hhi23]. rewrite Ht12 in Hhi23.
  split; [by etrans |].
  intros x Hx. apply Hhi23 in Hx. apply elem_of_union in Hx as [Hx | Hx].
  - by apply elem_of_union_l.
  - by apply Hhi12.
Qed.

(** A step that keeps the store and the token. *)
Lemma counters_grow_frame env w w' :
  counter_store w' = counter_store w ->
  participant_token env w' = participant_token env w ->
  counters_grow_by_token env w w'.
Proof.
  intros Hstore Htok. split; [done |]. intros key.
  unfold contributors. rewrite Hstore. split; [done |].
  apply union_subseteq_r.
Qed.

Lemma counters_grow_count_one env c w :
  counters_grow_by_token env w (count_one env c w).
Proof.
  split; [apply count_one_token |]. intros key.
  rewrite count_one_contributors. case_decide.
  - split; [apply union_subseteq_r | done].
  - split; [done | apply union_subseteq_r].
Qed.

Lemma counters_grow_count_all env cs w :
  counters_grow_by_token env w (count_all env cs w).
Proof.
  revert w. induction cs as [|c cs IH]; intros w.
  - apply counters_grow_refl.
  - change (count_all env (c :: cs) w)
      with (count_all env cs (count_one env c w)).
    eapply counters_grow_trans; [apply counters_grow_count_one | apply IH].
Qed.

Lemma counters_grow_emit env ev w : counters_grow_by_token env w (emit ev w).
Proof. apply counters_grow_frame; [done | apply emit_token]. Qed.

Lemma counters_grow_enrolled_world env e a w :
  counters_grow_by_token env w (enrolled_world e a w).
Proof.
  apply counters_grow_frame; [| apply enrolled_world_token].
  unfold enrolled_world. by destruct (user (request w)).
Qed.

Lemma counters_grow_operation env op w :
  counters_grow_by_token env w (exec (run_operation env op) w).
Proof.
  destruct op as [e | e a | g |]; unfold exec; cbn [run_operation].
  - unfold bind.
    assert ((get_enrollment env e w).2 = w) as Hro.
    { unfold get_enrollment, bind, get_world, ret. simpl.
      repeat (case_match; simpl; try done). }
    destruct (get_enrollment env e w) as [[r | err] w']; cbn [snd] in *;
      subst w'; apply counters_grow_refl.
  - destruct (set_enrollment_cases env e a w) as [-> | [-> | ->]]; cbn [snd].
    + apply counters_grow_refl.
    + eapply counters_grow_trans;
        [apply counters_grow_enrolled_world | apply counters_grow_emit].
    + eapply counters_grow_trans; [apply counters_grow_enrolled_world |].
      eapply counters_grow_trans;
        [apply counters_grow_count_one | apply counters_grow_emit].
  - destruct (record_goal_counts env g w) as (cs & Hex & _).
    unfold exec in Hex. rewrite Hex. apply counters_grow_count_all.
  - destruct (confirm_human_counts env w) as (cs & Hex & _).
    unfold exec in Hex. rewrite Hex.
    eapply counters_grow_trans; [| apply counters_grow_count_all].
    apply counters_grow_frame; [done | apply confirmed_token].
Qed.

(** Over any sequence of [get_enrollment], [set_enrollment], [record_goal]
    and [confirm_human] calls of one visitor, completed or cut short by an
    exception, every counter keeps the tokens it had and gains at most the
    visitor's own token: no count goes down, and no count goes up by more
    than one however often the visitor calls. *)
Theorem counters_grow_by_one_token env ops w key :
  let w' := exec (run_operations env ops) w in
  contributors key w ⊆ contributors key w' /\
  contributors key w' ⊆ {[participant_token env w]} ∪ contributors key w /\
  counter_value key w <= counter_value key w' <= S (counter_value key w).
Proof.
  intros w'.
  assert (counters_grow_by_token env w w') as [_ Hgrow].
  { unfold w'. clear w'. revert w.
    induction ops as [|op ops IH]; intros w.
    - apply counters_grow_refl.
    - unfold run_operations, exec. rewrite for_each_cons.
      pose proof (counters_grow_operation env op w) as Hop.
      unfold exec in Hop.
      destruct (run_operation env op w) as [[[] | err] w1]; cbn [snd] in *.
      + eapply counters_grow_trans; [exact Hop | apply IH].
      + exact Hop. }
  destruct (Hgrow key) as [Hlo Hhi].
  split; [exact Hlo |]. split; [exact Hhi |].
  unfold counter_value. split.
  - by apply subseteq_size.
  - etrans; [apply subseteq_size, Hhi |].
    rewrite size_union_alt, size_singleton.
    apply le_n_S, subseteq_size. apply subseteq_difference_l. done.
Qed.

(** ** Repeating [record_goal] *)


Lemma ensure_session_key_settled env w :
  settled w -> ensure_session_key env w = w.
Proof.
  unfold ensure_session_key. intros [[pk ->] | Hk]; [done |].
  rewrite Hk. by destruct (user (request w)).
Qed.

Lemma count_one_settled env c w :
  settled w -> request (count_one env c w) = request w.
Proof.
  intros Hw. unfold count_one.
  by rewrite counted_request, ensure_session_key_settled.
Qed.

Lemma count_all_settled env cs w :
  settled w -> request (count_all env cs w) = request w.
Proof.
  revert w. induction cs as [|c cs IH]; intros w Hw; [done |].
  change (count_all env (c :: cs) w)
    with (count_all env cs (count_one env c w)).
  pose proof (count_one_settled env c w Hw) as Hreq.
  rewrite IH; [done |]. unfold settled. by rewrite Hreq.
Qed.

Lemma for_each_decided {A} (env : Env) (body : A -> M unit)
    (decide_item : A -> Request -> Outcome (option Counted)) :
  (forall x w,
     body x w =
     match decide_item x (request w) with
     | Raise err => (Raise err, w)
     | Return None => (Return tt, w)
     | Return (Some c) => (Return tt, count_one env c w)
     end) ->
  forall items w,
    settled w ->
    exec (for_each items body) w =
    count_all env (decided decide_item items (request w)) w.
Proof.
  intros body_eq items. induction items as [|x items IH]; intros w Hw;
    [done |].
  unfold exec. rewrite for_each_cons, body_eq. cbn [decided].
  destruct (decide_item x (request w)) as [[c |] | err]; [| by apply IH | done].
  pose proof (count_one_settled env c w Hw) as Hreq.
  change (count_all env (c :: decided decide_item items (request w)) w)
    with (count_all env (decided decide_item items (request w))
            (count_one env c w)).
  rewrite <- Hreq. apply IH. unfold settled. by rewrite Hreq.
Qed.

Lemma record_goal_decided env goal_name w :
  settled w ->
  exec (record_goal env goal_name) w =
  count_all env (goals_decided env goal_name w) w.
Proof.
  intros Hw. unfold exec, goals_decided. rewrite record_goal_eq.
  destruct (_is_bot (request w)); [done |].
  destruct (user (request w)) as [| pk].
  - destruct (_is_verified_human env (request w) && dict_truthy _); [| done].
    by apply (for_each_decided env _ (goal_item_anonymous env goal_name)
                (goal_body_anonymous_eq env goal_name)).
  - by apply (for_each_decided env _ (goal_item_registered env goal_name)
                (goal_body_registered_eq env goal_name)).
Qed.

(** For a registered user, or an anonymous visitor whose session already
    has a key, calling [record_goal] again with the same goal decides the
    same enrollments and leaves every counter as the first call left it:
    the goal is counted once however often it is recorded. *)
Theorem record_goal_twice env goal_name w :
  settled w ->
  let w1 := exec (record_goal env goal_name) w in
  let w2 := exec (record_goal env goal_name) w1 in
  increment_calls (new_events (record_goal env goal_name) w1) =
    increment_calls (new_events (record_goal env goal_name) w) /\
  counter_store w2 = counter_store w1.
Proof.
  intros Hw w1 w2.
  set (cs := goals_decided env goal_name w).
  assert (w1 = count_all env cs w) as Hw1 by by apply record_goal_decided.
  assert (request w1 = request w) as Hreq
    by (rewrite Hw1; by apply count_all_settled).
  assert (settled w1) as Hw1s by (unfold settled; by rewrite Hreq).
  assert (goals_decided env goal_name w1 = cs) as Hcs.
  { unfold cs, goals_decided, session_enrollments.
    by rewrite Hreq, Hw1, count_all_table. }
  assert (w2 = count_all env cs w1) as Hw2.
  { unfold w2. by rewrite record_goal_decided, Hcs. }
  assert (participant_token env w1 = participant_token env w) as Htok
    by (rewrite Hw1; apply count_all_token).
  split.
  - rewrite (new_events_count_all _ env cs w1 Hw2).
    rewrite (new_events_count_all (record_goal env goal_name) env cs w Hw1).
    by rewrite Htok.
  - rewrite Hw2. apply count_all_counter_store_dedup.
    intros c Hc. rewrite Htok, Hw1, count_all_contributors.
    rewrite decide_True.
    + apply elem_of_union_l. by apply elem_of_singleton.
    + apply list_elem_of_fmap. by exists c.
Qed.

Lemma record_goal_twice_witness :
  let env := env_with exp_enabled true InsertOk in
  let w1 := exec (record_goal env "signup") enrolled_registered_world in
  let w2 := exec (record_goal env "signup") w1 in
  increment_calls (new_events (record_goal env "signup") w1) =
    increment_calls
      (new_events (record_goal env "signup") enrolled_registered_world) /\
  counter_store w2 = counter_store w1.
Proof.
  intros env.
  apply (record_goal_twice env "signup" enrolled_registered_world).
  left. by exists 7%Z.
Defined.

(** ** After verification *)

(** Once [confirm_human] has run, the visitor's next [set_enrollment]
    counts the participant: an anonymous, non-bot visitor is promoted from
    cached-only to counted. *)
Theorem confirmed_visitor_is_counted env e a w :
  _is_bot (request w) = false ->
  user (request w) = AnonymousUser ->
  let w1 := exec (confirm_human env) w in
  outcome (set_enrollment env e a) w1 = Return tt /\
  increment_calls (new_events (set_enrollment env e a) w1) =
  [(PARTICIPANT_KEY (name e) a, participant_token env w)].
Proof.
  intros Hbot Hu w1.
  destruct (confirm_human_counts env w) as (cs & Hex & _). fold w1 in Hex.
  pose proof (count_all_same_visitor env cs (confirmed w)) as Hsame.
  rewrite <- Hex in Hsame.
  assert (participant_token env w1 = participant_token env w) as Htok.
  { by rewrite Hex, count_all_token, confirmed_token. }
  rewrite <- Htok. apply set_enrollment_counts.
  - by rewrite (same_visitor_is_bot _ _ Hsame).
  - intros _. apply (confirm_human_verifies_helper env w).
  - intros pk Hpk. destruct Hsame as (Hu1 & _).
    rewrite Hu1 in Hpk. simpl in Hpk. congruence.
Qed.

Lemma confirmed_visitor_is_counted_witness :
  let env := env_with exp_enabled true InsertOk in
  let w1 := exec (confirm_human env) anonymous_world in
  outcome (set_enrollment env exp_enabled "A") w1 = Return tt /\
  increment_calls (new_events (set_enrollment env exp_enabled "A") w1) =
  [(PARTICIPANT_KEY (name exp_enabled) "A",
    participant_token env anonymous_world)].
Proof.
  intros env.
  apply (confirmed_visitor_is_counted env exp_enabled "A" anonymous_world);
    reflexivity.
Defined.

(** ** Looking up *)

(** For a non-bot visitor [get_enrollment] returns what is stored under the
    experiment's name (the row of a registered user, the session entry of
    an anonymous visitor) and [None], not [CONTROL_GROUP], when the visitor
    has no enrollment under that name. *)
Theorem get_enrollment_lookup env e w :
  _is_bot (request w) = false ->
  outcome (get_enrollment env e) w = Return (stored_alternative w e) /\
  (forall a, has_enrollment w (name e) a ->
             outcome (get_enrollment env e) w = Return (Some a)) /\
  ((forall a, ~ has_enrollment w (name e) a) ->
   outcome (get_enrollment env e) w = Return None).
Proof.
  intros Hbot. unfold outcome. rewrite get_enrollment_stored by done.
  cbn [fst]. split; [done |].
  unfold has_enrollment, stored_alternative.
  destruct (user (request w)) as [| pk]; split.
  - intros a [g ->]. done.
  - intros Hnone.
    destruct (session_enrollments w !! name e) as [[a g] |] eqn:Hrow;
      [| done].
    exfalso. apply (Hnone a). by exists g.
  - by intros a ->.
  - intros Hnone.
    destruct (Enrollment_objects w !! (pk, name e)) as [a |] eqn:Hrow;
      [| done].
    exfalso. by apply (Hnone a).
Qed.

Lemma get_enrollment_lookup_witness :
  outcome (get_enrollment env_unknown exp_enabled) enrolled_registered_world =
    Return (Some "A") /\
  outcome (get_enrollment env_unknown exp_enabled) registered_world =
    Return None.
Proof.
  split.
  - apply (proj1 (proj2 (get_enrollment_lookup env_unknown exp_enabled
             enrolled_registered_world eq_refl)) "A").
    reflexivity.
  - apply (proj2 (proj2 (get_enrollment_lookup env_unknown exp_enabled
             registered_world eq_refl))).
    intros a H. unfold has_enrollment in H. simpl in H.
    by rewrite lookup_empty in H.
Defined.
